(** * Chatbot demo: the message-exchange adapter and the conversation state

    A shallow embedding of [src/chat_demo/chat_demo/src/App.tsx]:
    the live provider [getGeminiResponse], the simulated provider
    [getOpenAIResponse], the router [getBotResponse], the handlers
    [handleSendMessage] and [handleModelChange] of the [App] component and
    its [getButtonClassName].

    The program runs in a browser, so its data are JavaScript data: a string
    is a sequence of UTF-16 code units, the parsed response body is an
    arbitrary JSON value (the source types it [any]), a property read on
    [null] throws, and [try]/[catch] turns every throw of its block into a
    normal return. *)

From Stdlib Require Import List NArith ZArith Bool String Ascii Lia.
From Stdlib Require Import SpecFloat DecimalString.
Import ListNotations.

Set Implicit Arguments.
Set Warnings "-register-all".

(* ===================================================================== *)
(** ** JavaScript data and the operations the source applies to them *)
(* ===================================================================== *)

Module JS.

(** A string is a list of UTF-16 code units. *)
Definition code_unit := N.
Definition js_string := list code_unit.

(** A literal of the source, all of which are ASCII. *)
Definition lit (s : string) : js_string :=
  map N_of_ascii (list_ascii_of_string s).

Fixpoint str_eqb (a b : js_string) : bool :=
  match a, b with
  | [], [] => true
  | x :: a', y :: b' => N.eqb x y && str_eqb a' b'
  | _, _ => false
  end.

(** [WhiteSpace] and [LineTerminator] of ECMAScript: what
    [String.prototype.trim] strips.  All of them lie in the basic
    multilingual plane, so the test is on one code unit. *)
Definition isWhiteSpace (c : code_unit) : bool :=
  (   N.eqb c 0x0009 || N.eqb c 0x000A || N.eqb c 0x000B || N.eqb c 0x000C
   || N.eqb c 0x000D || N.eqb c 0x0020 || N.eqb c 0x00A0 || N.eqb c 0x1680
   || (N.leb 0x2000 c && N.leb c 0x200A)
   || N.eqb c 0x2028 || N.eqb c 0x2029 || N.eqb c 0x202F || N.eqb c 0x205F
   || N.eqb c 0x3000 || N.eqb c 0xFEFF)%N.

Fixpoint trimStart (s : js_string) : js_string :=
  match s with
  | [] => []
  | c :: r => if isWhiteSpace c then trimStart r else s
  end.

Definition trimEnd (s : js_string) : js_string := rev (trimStart (rev s)).

(** [input.trim()] *)
Definition trim (s : js_string) : js_string := trimEnd (trimStart s).

(** A JavaScript value as [response.json()] and property reads produce
    it.  A number is an IEEE 754 double; an object is the list of its own
    properties. *)
Inductive value : Type :=
| VUndefined
| VNull
| VBool (b : bool)
| VNumber (x : spec_float)
| VString (s : js_string)
| VArray (elems : list value)
| VObject (props : list (js_string * value)).

(** [ToBoolean]: what [if (v)] and [a && b] test. *)
Definition ToBoolean (v : value) : bool :=
  match v with
  | VUndefined | VNull => false
  | VBool b => b
  | VNumber (S754_zero _) | VNumber S754_nan => false
  | VNumber _ => true
  | VString [] => false
  | VString (_ :: _) => true
  | VArray _ | VObject _ => true
  end.

Definition isNullish (v : value) : bool :=
  match v with
  | VUndefined | VNull => true
  | _ => false
  end.

Definition isString (v : value) : bool :=
  match v with
  | VString _ => true
  | _ => false
  end.

(** What a [throw] carries.  The one [catch] of the source only logs it. *)
Inductive exn : Type :=
| TypeError
| SyntaxError
| NetworkError
| Error (message : js_string).

(** The outcome of evaluating an expression or of awaiting a promise:
    a value, or a throw (a rejection). *)
Inductive completion (A : Type) : Type :=
| Normal (a : A)
| Throw (e : exn).
Arguments Throw {A} e.

Definition bind {A B} (c : completion A) (k : A -> completion B)
  : completion B :=
  match c with
  | Normal a => k a
  | Throw e => Throw e
  end.

(** [try { body } catch (error) { handler }] *)
Definition try_catch {A} (body : completion A) (handler : exn -> completion A)
  : completion A :=
  match body with
  | Normal a => Normal a
  | Throw e => handler e
  end.

(** The property keys of the source: a name ([.candidates]) or an index
    ([[0]]). *)
Inductive key : Type :=
| Named (name : js_string)
| Index (i : nat).

Definition key_string (k : key) : js_string :=
  match k with
  | Named n => n
  | Index i => lit (NilEmpty.string_of_uint (Nat.to_uint i))
  end.

Fixpoint own_property (props : list (js_string * value)) (n : js_string)
  : value :=
  match props with
  | [] => VUndefined
  | (n', v) :: rest => if str_eqb n' n then v else own_property rest n
  end.

(** [v[k]] and [v.k].  A read on [undefined] or [null] throws a
    [TypeError]; on an object it yields the own property or [undefined];
    an index reads an element of an array or a code unit of a string.
    The names the source reads ([candidates], [content], [parts], [text])
    are not defined on any built-in prototype, so a name read on an array,
    a string, a number or a boolean is [undefined]. *)
Definition Get (v : value) (k : key) : completion value :=
  match v with
  | VUndefined | VNull => Throw TypeError
  | VObject props => Normal (own_property props (key_string k))
  | VArray elems =>
      match k with
      | Index i => Normal (nth i elems VUndefined)
      | Named _ => Normal VUndefined
      end
  | VString s =>
      match k with
      | Index i =>
          match nth_error s i with
          | Some c => Normal (VString [c])
          | None => Normal VUndefined
          end
      | Named _ => Normal VUndefined
      end
  | VBool _ | VNumber _ => Normal VUndefined
  end.

(** One link [c?.k] of an optional chain: [undefined] when the base is
    [undefined] or [null].  Every later link of the chains in the source
    is optional too, so the short circuit of the whole chain and this
    link-by-link reading agree. *)
Definition OptGet (c : completion value) (k : key) : completion value :=
  bind c (fun v => if isNullish v then Normal VUndefined else Get v k).

End JS.

Declare Scope js_scope.
Delimit Scope js_scope with js.
Notation "x <- c ;; k" := (JS.bind c (fun x => k))
  (at level 61, c at next level, right associativity) : js_scope.
Notation "c ?.[ k ]" := (JS.OptGet c k) (at level 1, left associativity)
  : js_scope.

Import JS.
Local Open Scope js_scope.

(* ===================================================================== *)
(** ** The live provider *)
(* ===================================================================== *)

Module Gemini.

(** What [fetch] is called with. *)
Record Request : Type := {
  url : js_string;
  method : js_string;
  contentType : js_string;
  body : value;               (* the payload handed to [JSON.stringify] *)
}.

(** What [fetch] resolves to: the status line and the outcome of
    [response.json()], which rejects with a [SyntaxError] on a body that
    is not JSON. *)
Record Response : Type := {
  status : N;
  json : completion value;
}.

(** [response.ok]: the status is in the range 200-299. *)
Definition ok (r : Response) : bool :=
  (N.leb 200 (status r) && N.leb (status r) 299)%N.

(** The network as the program sees it: [fetch] resolves to a response or
    rejects. *)
Definition Network : Type := Request -> completion Response.

Definition systemPrompt : js_string :=
  lit "You are a helpful chatbot assistant. Respond to user queries concisely and professionally. If they ask about a service you can provide, offer to help them and provide a brief description.".

Definition apiUrl (apiKey : js_string) : js_string :=
  lit "https://generativelanguage.googleapis.com/v1beta/models/gemini-2.5-flash-preview-05-20:generateContent?key="
    ++ apiKey.

Definition payload (userQuery : js_string) : value :=
  VObject
    [ (lit "contents",
        VArray [VObject [(lit "parts",
          VArray [VObject [(lit "text", VString userQuery)]])]]);
      (lit "tools", VArray [VObject [(lit "google_search", VObject [])]]);
      (lit "systemInstruction",
        VObject [(lit "parts",
          VArray [VObject [(lit "text", VString systemPrompt)]])]) ].

(** The arguments of the call of [fetch]. *)
Definition request (apiKey userQuery : js_string) : Request :=
  {| url := apiUrl apiKey;
     method := lit "POST";
     contentType := lit "application/json";
     body := payload userQuery |}.

Definition couldnt_generate : js_string :=
  lit "I'm sorry, I couldn't generate a response. Please try again.".

Definition network_issue : js_string :=
  lit "Oops! I seem to be having a network issue or an API issue. Please try again.".

Definition candidates := Named (lit "candidates").
Definition content := Named (lit "content").
Definition parts := Named (lit "parts").
Definition text_ := Named (lit "text").

(** [candidate.content?.parts?.[0]?.text] *)
Definition candidate_text (candidate : value) : completion value :=
  (Get candidate content)?.[parts]?.[Index 0]?.[text_].

(** The block of the [try]. *)
Definition attempt (fetch : Network) (req : Request) : completion value :=
  response <- fetch req ;;
  if negb (ok response) then
    Throw (Error (lit "API request failed with status: "
                    ++ lit (NilEmpty.string_of_uint (N.to_uint (status response)))))
  else
    result <- json response ;;
    candidate <- (Get result candidates)?.[Index 0] ;;
    test <- (if ToBoolean candidate then candidate_text candidate
             else Normal candidate) ;;
    if ToBoolean test then
      c <- Get candidate content ;;
      p <- Get c parts ;;
      e <- Get p (Index 0) ;;
      Get e text_
    else
      Normal (VString couldnt_generate).

(** [getGeminiResponse].  [apiKey] is [import.meta.env.VITE_GEMINI_API_KEY]
    as the template literal renders it. *)
Definition getGeminiResponse (apiKey : js_string) (fetch : Network)
    (userMessage : js_string) : completion value :=
  let userQuery := userMessage in
  try_catch
    (attempt fetch (request apiKey userQuery))
    (fun error => Normal (VString network_issue)).

End Gemini.

(* ===================================================================== *)
(** ** The simulated providers and the router *)
(* ===================================================================== *)

Module Router.

(** [type AiModel = 'gemini' | 'chatgpt' | 'claude'].  The type is erased
    when the program runs: an identifier is a string, and the [switch] of
    [getBotResponse] has a [default] branch for every other one. *)
Definition AiModel : Type := js_string.

Definition gemini : AiModel := lit "gemini".
Definition chatgpt : AiModel := lit "chatgpt".
Definition claude : AiModel := lit "claude".

Definition chatgpt_reply : js_string :=
  lit "This is a response from the simulated ChatGPT. I can help you with creative writing, code snippets, and general knowledge.".

Definition claude_reply : js_string :=
  lit "Hello! I am the simulated Claude model. I am known for my coherent and thoughtful long-form responses.".

Definition unsure_reply : js_string :=
  lit "I'm not sure which model you want me to use.".

(** [await new Promise(resolve => setTimeout(resolve, ms))]: the promise
    is resolved by the timer and never rejected. *)
Definition sleep (ms : N) : completion unit := Normal tt.

(** [getOpenAIResponse] *)
Definition getOpenAIResponse : completion value :=
  _ <- sleep 500 ;;
  Normal (VString chatgpt_reply).

(** [getBotResponse]: a [switch] on the identifier, compared with [===]. *)
Definition getBotResponse (apiKey : js_string) (fetch : Gemini.Network)
    (userMessage : js_string) (model : AiModel) : completion value :=
  if str_eqb model gemini then
    Gemini.getGeminiResponse apiKey fetch userMessage
  else if str_eqb model chatgpt then
    getOpenAIResponse
  else if str_eqb model claude then
    _ <- sleep 500 ;;
    Normal (VString claude_reply)
  else
    Normal (VString unsure_reply).

End Router.

(* ===================================================================== *)
(** ** The component: conversation state and its handlers *)
(* ===================================================================== *)

Module App.
Import Router.

Inductive Sender : Type := user | bot.

(** [interface ChatMessage].  [text] holds whatever [getBotResponse]
    resolved to. *)
Record ChatMessage : Type := {
  text : value;
  sender : Sender;
  model : option AiModel;
}.

(** The four [useState] cells of [App]. *)
Record State : Type := {
  messages : list ChatMessage;
  input : js_string;
  isTyping : bool;
  selectedModel : AiModel;
}.

(** The closure [handleSendMessage] hands to [setTimeout]: it has captured
    [trimmedInput] and the [selectedModel] of the render that submitted. *)
Record Exchange : Type := {
  trimmedInput : js_string;
  capturedModel : AiModel;
}.

(** The component together with the callbacks that have not run yet. *)
Record World : Type := {
  ui : State;
  timers : list Exchange;
}.

(** The state of the first render. *)
Definition initial : World :=
  {| ui := {| messages := []; input := []; isTyping := false;
              selectedModel := gemini |};
     timers := [] |}.

(** [onChange={(e) => setInput(e.target.value)}] *)
Definition handleInputChange (v : js_string) (w : World) : World :=
  {| ui := {| messages := messages (ui w); input := v;
              isTyping := isTyping (ui w);
              selectedModel := selectedModel (ui w) |};
     timers := timers w |}.

(** [handleSendMessage], up to the call of [setTimeout]. *)
Definition handleSendMessage (w : World) : World :=
  let trimmedInput := trim (input (ui w)) in
  if str_eqb trimmedInput [] then w
  else
    let newUserMessage :=
      {| text := VString trimmedInput; sender := user; model := None |} in
    {| ui := {| messages := messages (ui w) ++ [newUserMessage];
                input := [];
                isTyping := true;
                selectedModel := selectedModel (ui w) |};
       timers := timers w ++
                 [{| trimmedInput := trimmedInput;
                     capturedModel := selectedModel (ui w) |}] |}.

(** [handleModelChange] *)
Definition handleModelChange (m : AiModel) (w : World) : World :=
  {| ui := {| messages := [];
              input := input (ui w);
              isTyping := isTyping (ui w);
              selectedModel := m |};
     timers := timers w |}.

Section Callback.
Variable apiKey : js_string.

(** The callback of [setTimeout], run to its end against the network
    [fetch].  Were [getBotResponse] to reject, the two updates after the
    [await] would not run. *)
Definition botCallback (fetch : Gemini.Network) (ex : Exchange)
    (s : State) : State :=
  match getBotResponse apiKey fetch (trimmedInput ex) (capturedModel ex) with
  | Normal botResponseText =>
      let newBotMessage :=
        {| text := botResponseText; sender := bot;
           model := Some (capturedModel ex) |} in
      {| messages := messages s ++ [newBotMessage];
         input := input s;
         isTyping := false;
         selectedModel := selectedModel s |}
  | Throw _ => s
  end.

(** What can happen to the page: the user types, submits the form or
    presses a model button, or one of the pending callbacks completes
    (the delays and the network decide which one, so any may). *)
Inductive Event : Type :=
| Typed (v : js_string)
| Submitted
| ModelChosen (m : AiModel)
| Completed (i : nat) (fetch : Gemini.Network).

Definition step (w : World) (e : Event) : World :=
  match e with
  | Typed v => handleInputChange v w
  | Submitted => handleSendMessage w
  | ModelChosen m => handleModelChange m w
  | Completed i fetch =>
      match nth_error (timers w) i with
      | Some ex =>
          {| ui := botCallback fetch ex (ui w);
             timers := firstn i (timers w) ++ skipn (S i) (timers w) |}
      | None => w
      end
  end.

Definition run (w : World) (es : list Event) : World :=
  fold_left step es w.

End Callback.

End App.

(* ===================================================================== *)
(** ** The contract, in the words of the specification *)
(* ===================================================================== *)

Module Contract.

(** The value an optional read [v?.k] yields. *)
Definition read (v : value) (k : key) : value :=
  match (Normal v)?.[k] with
  | Normal x => x
  | Throw _ => VUndefined
  end.

(** [candidates[0].content.parts[0].text] *)
Definition reply_path : list key :=
  [Gemini.candidates; Index 0; Gemini.content; Gemini.parts; Index 0;
   Gemini.text_].

(** The value JavaScript finds at a path of a body, [undefined] when the
    path breaks off. *)
Definition at_path (body : value) (path : list key) : value :=
  fold_left read path body.

(** The reply text of a well-shaped body, as the specification words it:
    the body is an object whose [candidates] is an array, the first
    candidate an object whose [content] is an object whose [parts] is an
    array, and the first part an object whose [text] is a string. *)
Definition reply_text (body : value) : option js_string :=
  match body with
  | VObject props =>
      match own_property props (lit "candidates") with
      | VArray (VObject candidate :: _) =>
          match own_property candidate (lit "content") with
          | VObject cont =>
              match own_property cont (lit "parts") with
              | VArray (VObject part :: _) =>
                  match own_property part (lit "text") with
                  | VString s => Some s
                  | _ => None
                  end
              | _ => None
              end
          | _ => None
          end
      | _ => None
      end
  | _ => None
  end.

(** A network whose every call resolves to the response [r]. *)
Definition always (r : Gemini.Response) : Gemini.Network :=
  fun _ => Normal r.

(** A body with the shape of the specification's scenario A around the
    value [t]: [{"candidates":[{"content":{"parts":[{"text":t}]}}]}]. *)
Definition body_with_text (t : value) : value :=
  VObject [(lit "candidates",
    VArray [VObject [(lit "content",
      VObject [(lit "parts",
        VArray [VObject [(lit "text", t)]])])]])].

(** The user message a submission in the world [w] appends, and the
    callback it schedules. *)
Definition userMessageOf (w : App.World) : App.ChatMessage :=
  {| App.text := VString (trim (App.input (App.ui w)));
     App.sender := App.user; App.model := None |}.

Definition exchangeOf (w : App.World) : App.Exchange :=
  {| App.trimmedInput := trim (App.input (App.ui w));
     App.capturedModel := App.selectedModel (App.ui w) |}.

(** The bot message that answers with [v] for the provider [m]. *)
Definition botMessage (v : value) (m : Router.AiModel) : App.ChatMessage :=
  {| App.text := v; App.sender := App.bot; App.model := Some m |}.

End Contract.

(* ===================================================================== *)
(** ** The model buttons, and what is counted in a conversation *)
(* ===================================================================== *)

Module View.

(** [getButtonClassName]: the template literal leaves a space after
    [model-button] when the button is not the active one. *)
Definition getButtonClassName (s : App.State) (model : Router.AiModel)
  : js_string :=
  lit "model-button "
    ++ (if str_eqb (App.selectedModel s) model then lit "active" else []).

(** The identifiers the three buttons of the header pass to
    [handleModelChange], in the order of the page. *)
Definition buttons : list Router.AiModel :=
  [Router.gemini; Router.chatgpt; Router.claude].

End View.

Module Log.

Definition is_user (m : App.ChatMessage) : bool :=
  match App.sender m with
  | App.user => true
  | App.bot => false
  end.

Definition is_bot (m : App.ChatMessage) : bool := negb (is_user m).

(** The user messages and the bot messages of the log, and the callbacks
    that have not run yet. *)
Definition users (w : App.World) : nat :=
  List.length (filter is_user (App.messages (App.ui w))).

Definition bots (w : App.World) : nat :=
  List.length (filter is_bot (App.messages (App.ui w))).

Definition pending (w : App.World) : nat := List.length (App.timers w).

(** A text that is not empty and that [trim] leaves as it is. *)
Definition trimmed (s : js_string) : bool :=
  negb (str_eqb s []) && str_eqb (trim s) s.

(** A user message holds a trimmed text and no provider; a bot message
    holds a provider and anything but the empty string. *)
Definition message_ok (m : App.ChatMessage) : bool :=
  match App.sender m with
  | App.user =>
      match App.text m, App.model m with
      | VString s, None => trimmed s
      | _, _ => false
      end
  | App.bot =>
      match App.model m with
      | Some _ =>
          match App.text m with
          | VString [] => false
          | _ => true
          end
      | None => false
      end
  end.

Definition exchange_ok (ex : App.Exchange) : bool :=
  trimmed (App.trimmedInput ex).

Definition world_ok (w : App.World) : bool :=
  forallb message_ok (App.messages (App.ui w))
  && forallb exchange_ok (App.timers w).

(** One of the identifiers a button passes. *)
Definition known (m : Router.AiModel) : bool :=
  existsb (str_eqb m) View.buttons.

(** An event the page can produce: a provider is only chosen through one
    of the three buttons. *)
Definition from_page (e : App.Event) : bool :=
  match e with
  | App.ModelChosen m => known m
  | _ => true
  end.

Definition keeps_provider (e : App.Event) : bool :=
  match e with
  | App.ModelChosen _ => false
  | _ => true
  end.

Definition tag_known (m : App.ChatMessage) : bool :=
  match App.model m with
  | Some x => known x
  | None => true
  end.

Definition providers_known (w : App.World) : bool :=
  known (App.selectedModel (App.ui w))
  && forallb (fun ex => known (App.capturedModel ex)) (App.timers w)
  && forallb tag_known (App.messages (App.ui w)).

(** [contents[0].parts[0].text] and [systemInstruction.parts[0].text] of
    the request payload. *)
Definition contents_path : list key :=
  [Named (lit "contents"); Index 0; Named (lit "parts"); Index 0;
   Named (lit "text")].

Definition instruction_path : list key :=
  [Named (lit "systemInstruction"); Named (lit "parts"); Index 0;
   Named (lit "text")].

End Log.

(* ===================================================================== *)
(** ** Closures and pending callbacks *)
(* ===================================================================== *)

Module Closure.

(** [handleSendMessage] as the closure of one render: [input] and
    [selectedModel] are the constants of the render [r] that created the
    handler, while the updater handed to [setMessages] appends to the log
    of the moment it runs in.  [App.handleSendMessage] is the handler of
    the latest render. *)
Definition handleSendMessageOf (r : App.State) (w : App.World) : App.World :=
  let trimmedInput := trim (App.input r) in
  if str_eqb trimmedInput [] then w
  else
    let newUserMessage :=
      {| App.text := VString trimmedInput; App.sender := App.user;
         App.model := None |} in
    {| App.ui := {| App.messages := App.messages (App.ui w) ++ [newUserMessage];
                    App.input := [];
                    App.isTyping := true;
                    App.selectedModel := App.selectedModel (App.ui w) |};
       App.timers := App.timers w ++
                     [{| App.trimmedInput := trimmedInput;
                         App.capturedModel := App.selectedModel r |}] |}.

(** The place in [timers] of the pending callback at place [i], after the
    event [e]: a callback before it that completes moves it one place
    down; it is gone when it is the one that completes. *)
Definition shift (i : nat) (e : App.Event) : option nat :=
  match e with
  | App.Completed j _ =>
      if Nat.eqb j i then None
      else if Nat.ltb j i then Some (i - 1)
      else Some i
  | _ => Some i
  end.

(** Its place after the events [es], if none of them completed it. *)
Fixpoint locate (i : nat) (es : list App.Event) : option nat :=
  match es with
  | [] => Some i
  | e :: es' =>
      match shift i e with
      | Some i' => locate i' es'
      | None => None
      end
  end.

End Closure.

Import Contract.
Unset Implicit Arguments.

(* ===================================================================== *)
(** ** Facts about the JavaScript operations *)
(* ===================================================================== *)

Lemma str_eqb_eq (a b : js_string) : str_eqb a b = true <-> a = b.
Proof.
  revert b; induction a as [|x a IH]; intros [|y b]; simpl;
    try (split; (reflexivity || discriminate)).
  rewrite andb_true_iff, N.eqb_eq, IH.
  split; [intros [-> ->]; reflexivity | intros [= -> ->]; auto].
Qed.

Lemma str_eqb_refl (a : js_string) : str_eqb a a = true.
Proof. apply str_eqb_eq; reflexivity. Qed.

Lemma str_eqb_neq (a b : js_string) : a <> b -> str_eqb a b = false.
Proof.
  intros Hne. destruct (str_eqb a b) eqn:E; [|reflexivity].
  apply str_eqb_eq in E. contradiction.
Qed.

Lemma str_eqb_nil (a : js_string) : str_eqb a [] = true <-> a = [].
Proof. apply str_eqb_eq. Qed.

Lemma trimStart_nil (s : js_string) :
  trimStart s = [] <-> forallb isWhiteSpace s = true.
Proof.
  induction s as [|c r IH]; simpl; [tauto|].
  destruct (isWhiteSpace c); simpl; [exact IH|].
  split; discriminate.
Qed.

Lemma trimStart_head (s : js_string) c r :
  trimStart s = c :: r -> isWhiteSpace c = false.
Proof.
  induction s as [|d s IH]; simpl; [discriminate|].
  destruct (isWhiteSpace d) eqn:E; [exact IH|].
  intros [= <- _]; exact E.
Qed.

Lemma forallb_rev (A : Type) (f : A -> bool) (l : list A) :
  forallb f (rev l) = forallb f l.
Proof.
  destruct (forallb f l) eqn:E.
  - apply forallb_forall. intros x Hx. apply in_rev in Hx.
    rewrite forallb_forall in E. auto.
  - destruct (forallb f (rev l)) eqn:E'; [|reflexivity].
    rewrite <- E. symmetry. apply forallb_forall. intros x Hx.
    rewrite forallb_forall in E'. apply E'. apply in_rev in Hx. exact Hx.
Qed.

(** [trim] yields the empty string exactly on the inputs made of white space
    only, the empty one among them. *)
Lemma trim_nil (s : js_string) :
  trim s = [] <-> forallb isWhiteSpace s = true.
Proof.
  unfold trim, trimEnd. split.
  - intros H. apply (f_equal (@rev code_unit)) in H.
    rewrite rev_involutive in H. simpl in H.
    apply trimStart_nil in H. rewrite forallb_rev in H.
    destruct (trimStart s) as [|c r] eqn:E.
    + apply trimStart_nil; exact E.
    + apply trimStart_head in E. simpl in H. rewrite E in H. discriminate.
  - intros H. apply trimStart_nil in H. rewrite H. reflexivity.
Qed.

Lemma truthy_not_nullish (v : value) :
  ToBoolean v = true -> isNullish v = false.
Proof. destruct v; simpl; (reflexivity || discriminate). Qed.

Lemma optget_read (v : value) (k : key) : (Normal v)?.[k] = Normal (read v k).
Proof.
  unfold read. destruct v; simpl; try reflexivity;
    destruct k; try reflexivity.
  destruct (nth_error s i); reflexivity.
Qed.

Lemma get_read (v : value) (k : key) :
  isNullish v = false -> Get v k = Normal (read v k).
Proof.
  intros H. rewrite <- optget_read. simpl. rewrite H. reflexivity.
Qed.

Lemma read_nullish (v : value) (k : key) :
  isNullish v = true -> read v k = VUndefined.
Proof. destruct v; simpl; (reflexivity || discriminate). Qed.

Lemma read_truthy_base (v : value) (k : key) :
  ToBoolean (read v k) = true -> isNullish v = false.
Proof.
  destruct (isNullish v) eqn:E; [|reflexivity].
  rewrite (read_nullish v k E). discriminate.
Qed.

Lemma read_falsy_named (v : value) (n : js_string) :
  ToBoolean v = false -> read v (Named n) = VUndefined.
Proof.
  destruct v as [| |b|x|s|l|p]; simpl; try reflexivity; try discriminate.
Qed.

(* ===================================================================== *)
(** ** The live provider *)
(* ===================================================================== *)

Section LiveProvider.
Variable apiKey : js_string.
Variable fetch : Gemini.Network.
Variable userMessage : js_string.

Lemma candidate_text_read (candidate : value) :
  isNullish candidate = false ->
  Gemini.candidate_text candidate =
    Normal (read (read (read (read candidate Gemini.content) Gemini.parts)
                    (Index 0)) Gemini.text_).
Proof.
  intros H. unfold Gemini.candidate_text.
  rewrite (get_read _ _ H). rewrite !optget_read. reflexivity.
Qed.

(** The block of the [try] on a response in the success range whose body
    parsed to something other than [null]. *)
Lemma attempt_parsed (r : Gemini.Response) (body : value) :
  fetch (Gemini.request apiKey userMessage) = Normal r ->
  Gemini.ok r = true ->
  Gemini.json r = Normal body ->
  isNullish body = false ->
  Gemini.attempt fetch (Gemini.request apiKey userMessage) =
    Normal (if ToBoolean (at_path body reply_path)
            then at_path body reply_path
            else VString Gemini.couldnt_generate).
Proof.
  intros Hf Hok Hj Hb.
  unfold Gemini.attempt. rewrite Hf. cbn [bind]. rewrite Hok. cbn [negb].
  rewrite Hj. cbn [bind]. rewrite (get_read _ _ Hb). rewrite optget_read.
  cbn [bind].
  unfold at_path, reply_path. cbn [fold_left].
  generalize (read (read body Gemini.candidates) (Index 0)).
  intros candidate.
  destruct (ToBoolean candidate) eqn:Hc.
  - pose proof (truthy_not_nullish _ Hc) as Hn.
    rewrite (candidate_text_read _ Hn). cbn [bind].
    destruct (ToBoolean (read (read (read (read candidate Gemini.content)
                Gemini.parts) (Index 0)) Gemini.text_)) eqn:Ht;
      [|reflexivity].
    pose proof (read_truthy_base _ _ Ht) as H3.
    assert (H2 : isNullish (read (read candidate Gemini.content)
                              Gemini.parts) = false).
    { destruct (isNullish (read (read candidate Gemini.content) Gemini.parts))
        eqn:E; [|reflexivity].
      rewrite (read_nullish _ (Index 0) E) in H3. discriminate. }
    assert (H1 : isNullish (read candidate Gemini.content) = false).
    { destruct (isNullish (read candidate Gemini.content)) eqn:E;
        [|reflexivity].
      rewrite (read_nullish _ Gemini.parts E) in H2. discriminate. }
    rewrite (get_read _ _ Hn). cbn [bind].
    rewrite (get_read _ _ H1). cbn [bind].
    rewrite (get_read _ _ H2). cbn [bind].
    rewrite (get_read _ _ H3). reflexivity.
  - cbn [bind]. rewrite Hc.
    unfold Gemini.content at 1 2. rewrite (read_falsy_named _ _ Hc).
    reflexivity.
Qed.

Lemma gemini_parsed (r : Gemini.Response) (body : value) :
  fetch (Gemini.request apiKey userMessage) = Normal r ->
  Gemini.ok r = true ->
  Gemini.json r = Normal body ->
  isNullish body = false ->
  Gemini.getGeminiResponse apiKey fetch userMessage =
    Normal (if ToBoolean (at_path body reply_path)
            then at_path body reply_path
            else VString Gemini.couldnt_generate).
Proof.
  intros Hf Hok Hj Hb. unfold Gemini.getGeminiResponse.
  rewrite (attempt_parsed _ _ Hf Hok Hj Hb). reflexivity.
Qed.

(** Whatever the network does, the call resolves. *)
Lemma gemini_resolves :
  exists v, Gemini.getGeminiResponse apiKey fetch userMessage = Normal v.
Proof.
  unfold Gemini.getGeminiResponse, try_catch.
  destruct (Gemini.attempt _ _); eauto.
Qed.

End LiveProvider.

(** On a body of the shape the specification describes, JavaScript finds the
    reply text at the reply path. *)
Lemma reply_text_at_path (body : value) (s : js_string) :
  reply_text body = Some s -> at_path body reply_path = VString s.
Proof.
  unfold reply_text, at_path, reply_path. cbn [fold_left].
  destruct body as [| | | | | |props]; try discriminate.
  change (read (VObject props) Gemini.candidates)
    with (own_property props (lit "candidates")).
  destruct (own_property props (lit "candidates"))
    as [| | | | |[|[| | | | | |candidate] rest]|]; try discriminate.
  change (read (VArray (VObject candidate :: rest)) (Index 0))
    with (VObject candidate).
  change (read (VObject candidate) Gemini.content)
    with (own_property candidate (lit "content")).
  destruct (own_property candidate (lit "content"))
    as [| | | | | |cont]; try discriminate.
  change (read (VObject cont) Gemini.parts)
    with (own_property cont (lit "parts")).
  destruct (own_property cont (lit "parts"))
    as [| | | | |[|[| | | | | |part] rest']|]; try discriminate.
  change (read (VArray (VObject part :: rest')) (Index 0))
    with (VObject part).
  change (read (VObject part) Gemini.text_)
    with (own_property part (lit "text")).
  destruct (own_property part (lit "text")); try discriminate.
  intros [= ->]. reflexivity.
Qed.

Lemma reply_text_not_nullish (body : value) (s : js_string) :
  reply_text body = Some s -> isNullish body = false.
Proof. destruct body; simpl; (reflexivity || discriminate). Qed.

(** Every outcome of the live provider: one of the two fallback strings, or
    a truthy value read from the body. *)
Lemma gemini_cases (apiKey : js_string) (fetch : Gemini.Network)
    (userMessage : js_string) :
  Gemini.getGeminiResponse apiKey fetch userMessage
    = Normal (VString Gemini.network_issue)
  \/ Gemini.getGeminiResponse apiKey fetch userMessage
    = Normal (VString Gemini.couldnt_generate)
  \/ exists r body,
       fetch (Gemini.request apiKey userMessage) = Normal r
       /\ Gemini.ok r = true
       /\ Gemini.json r = Normal body
       /\ ToBoolean (at_path body reply_path) = true
       /\ Gemini.getGeminiResponse apiKey fetch userMessage
            = Normal (at_path body reply_path).
Proof.
  destruct (fetch (Gemini.request apiKey userMessage)) as [r|e] eqn:Hf.
  - destruct (Gemini.ok r) eqn:Hok.
    + destruct (Gemini.json r) as [body|e] eqn:Hj.
      * destruct (isNullish body) eqn:Hb.
        -- left. unfold Gemini.getGeminiResponse, Gemini.attempt.
           rewrite Hf. cbn [bind]. rewrite Hok. cbn [negb]. rewrite Hj.
           destruct body; try discriminate; reflexivity.
        -- rewrite (gemini_parsed apiKey fetch userMessage r body Hf Hok Hj Hb).
           destruct (ToBoolean (at_path body reply_path)) eqn:Ht.
           ++ right; right. exists r, body. auto.
           ++ right; left; reflexivity.
      * left. unfold Gemini.getGeminiResponse, Gemini.attempt.
        rewrite Hf. cbn [bind]. rewrite Hok. cbn [negb]. rewrite Hj.
        reflexivity.
    + left. unfold Gemini.getGeminiResponse, Gemini.attempt.
      rewrite Hf. cbn [bind]. rewrite Hok. reflexivity.
  - left. unfold Gemini.getGeminiResponse, Gemini.attempt.
    rewrite Hf. reflexivity.
Qed.

Lemma fallbacks_not_empty :
  Gemini.network_issue <> [] /\ Gemini.couldnt_generate <> [].
Proof. split; discriminate. Qed.

(** C2.  Whenever the network call rejects, the response status is outside
    the success range 200-299, or parsing the body as JSON rejects,
    [getGeminiResponse] resolves to the network-issue string; and on every
    call, whatever the network does, it resolves to a value: nothing is
    thrown out of the live provider. *)
Theorem live_provider_swallows_failures
    (apiKey : js_string) (fetch : Gemini.Network) (userMessage : js_string) :
  ((exists e, fetch (Gemini.request apiKey userMessage) = Throw e)
   \/ (exists r, fetch (Gemini.request apiKey userMessage) = Normal r
         /\ Gemini.ok r = false)
   \/ (exists r e, fetch (Gemini.request apiKey userMessage) = Normal r
         /\ Gemini.json r = Throw e)) ->
  Gemini.getGeminiResponse apiKey fetch userMessage
    = Normal (VString Gemini.network_issue)
  /\ (forall fetch' userMessage',
        exists v, Gemini.getGeminiResponse apiKey fetch' userMessage'
                    = Normal v).
Proof.
  intros H. split; [|intros; apply gemini_resolves].
  unfold Gemini.getGeminiResponse, Gemini.attempt.
  destruct H as [[e Hf]|[(r & Hf & Hok)|(r & e & Hf & Hj)]];
    rewrite Hf; cbn [bind]; try reflexivity.
  - rewrite Hok. reflexivity.
  - destruct (Gemini.ok r); cbn [negb]; [rewrite Hj|]; reflexivity.
Qed.

(** Scenario B of the specification: status 500. *)
Lemma live_provider_swallows_failures_witness :
  Gemini.ok {| Gemini.status := 500; Gemini.json := Throw SyntaxError |} = false
  /\ Gemini.getGeminiResponse (lit "key")
       (always {| Gemini.status := 500; Gemini.json := Throw SyntaxError |})
       (lit "hello")
     = Normal (VString Gemini.network_issue).
Proof.
  split; [reflexivity|].
  apply (live_provider_swallows_failures (lit "key")
           (always {| Gemini.status := 500; Gemini.json := Throw SyntaxError |})
           (lit "hello")).
  right; left. eexists; split; reflexivity.
Defined.

(** C3, as amended.  On a response in the success range (status 200 among
    them) whose body parses to a value other than [null]: when the value
    JavaScript reads at [candidates[0].content.parts[0].text] is a non-empty
    string, as it is for a well-shaped body with a non-empty reply text, the
    call resolves to that string; when the read yields [undefined] or
    another falsy value, the call resolves to the "couldn't generate a
    response" string. *)
Theorem successful_response_reply
    (apiKey : js_string) (fetch : Gemini.Network) (userMessage : js_string)
    (r : Gemini.Response) (body : value) :
  fetch (Gemini.request apiKey userMessage) = Normal r ->
  Gemini.ok r = true ->
  Gemini.json r = Normal body ->
  isNullish body = false ->
  (forall s, at_path body reply_path = VString s -> s <> [] ->
     Gemini.getGeminiResponse apiKey fetch userMessage = Normal (VString s))
  /\ (forall s, reply_text body = Some s -> s <> [] ->
        Gemini.getGeminiResponse apiKey fetch userMessage = Normal (VString s))
  /\ (ToBoolean (at_path body reply_path) = false ->
        Gemini.getGeminiResponse apiKey fetch userMessage
          = Normal (VString Gemini.couldnt_generate)).
Proof.
  intros Hf Hok Hj Hb.
  pose proof (gemini_parsed apiKey fetch userMessage r body Hf Hok Hj Hb) as E.
  assert (Hstr : forall s, at_path body reply_path = VString s -> s <> [] ->
            Gemini.getGeminiResponse apiKey fetch userMessage
              = Normal (VString s)).
  { intros s Hs Hne. rewrite E, Hs. destruct s; [contradiction|reflexivity]. }
  split; [exact Hstr|]. split.
  - intros s Hs. apply Hstr. apply reply_text_at_path; exact Hs.
  - intros Ht. rewrite E, Ht. reflexivity.
Qed.

(** Scenarios A and C of the specification: the body
    [{"candidates":[{"content":{"parts":[{"text":"Hi there"}]}}]}] yields
    ["Hi there"], the body [{}] the fallback. *)
Lemma successful_response_reply_witness :
  Gemini.getGeminiResponse (lit "key")
    (always {| Gemini.status := 200;
               Gemini.json := Normal (body_with_text (VString (lit "Hi there"))) |})
    (lit "hello")
  = Normal (VString (lit "Hi there"))
  /\ Gemini.getGeminiResponse (lit "key")
       (always {| Gemini.status := 200; Gemini.json := Normal (VObject []) |})
       (lit "hello")
     = Normal (VString Gemini.couldnt_generate).
Proof.
  split.
  - refine (proj1 (proj2 (successful_response_reply (lit "key")
      (always {| Gemini.status := 200;
                 Gemini.json := Normal (body_with_text (VString (lit "Hi there"))) |})
      (lit "hello") _ _ eq_refl eq_refl eq_refl eq_refl)) (lit "Hi there") eq_refl _).
    discriminate.
  - exact (proj2 (proj2 (successful_response_reply (lit "key")
      (always {| Gemini.status := 200; Gemini.json := Normal (VObject []) |})
      (lit "hello") _ _ eq_refl eq_refl eq_refl eq_refl)) eq_refl).
Defined.

(** C3 as it is stated fails.  With status 200 and the body
    shaped like scenario A with the empty string as its text, the text at
    the path is the empty string, and the call resolves to the "couldn't
    generate a response" string instead of it; with status 200 and the body
    [null] the path is absent, and the call resolves to the network-issue
    string instead of the "couldn't generate a response" string. *)
Lemma successful_response_counterexample :
  (reply_text (body_with_text (VString [])) = Some []
   /\ Gemini.getGeminiResponse (lit "key")
        (always {| Gemini.status := 200;
                   Gemini.json := Normal (body_with_text (VString [])) |})
        (lit "hello")
      <> Normal (VString []))
  /\ (reply_text VNull = None
      /\ Gemini.getGeminiResponse (lit "key")
           (always {| Gemini.status := 200; Gemini.json := Normal VNull |})
           (lit "hello")
         <> Normal (VString Gemini.couldnt_generate)).
Proof.
  split; (split; [reflexivity|]); vm_compute; discriminate.
Qed.

(** C9.  On a response in the success range whose body carries the empty
    string at [candidates[0].content.parts[0].text], the call resolves to
    the "couldn't generate a response" string; and on no call at all does
    the live provider resolve to the empty string. *)
Theorem empty_reply_text_falls_back
    (apiKey : js_string) (fetch : Gemini.Network) (userMessage : js_string)
    (r : Gemini.Response) (body : value) :
  fetch (Gemini.request apiKey userMessage) = Normal r ->
  Gemini.ok r = true ->
  Gemini.json r = Normal body ->
  reply_text body = Some [] ->
  Gemini.getGeminiResponse apiKey fetch userMessage
    = Normal (VString Gemini.couldnt_generate)
  /\ (forall fetch' userMessage',
        Gemini.getGeminiResponse apiKey fetch' userMessage'
          <> Normal (VString [])).
Proof.
  intros Hf Hok Hj Hs. split.
  - rewrite (gemini_parsed apiKey fetch userMessage r body Hf Hok Hj
               (reply_text_not_nullish body [] Hs)).
    rewrite (reply_text_at_path body [] Hs). reflexivity.
  - intros fetch' userMessage'.
    destruct (gemini_cases apiKey fetch' userMessage')
      as [E|[E|(r' & body' & _ & _ & _ & Ht & E)]]; rewrite E.
    + intros H. apply (proj1 fallbacks_not_empty). congruence.
    + intros H. apply (proj2 fallbacks_not_empty). congruence.
    + intros H. assert (at_path body' reply_path = VString []) as E'
        by congruence.
      rewrite E' in Ht. discriminate.
Qed.

Lemma empty_reply_text_falls_back_witness :
  reply_text (body_with_text (VString [])) = Some []
  /\ Gemini.getGeminiResponse (lit "key")
       (always {| Gemini.status := 200;
                  Gemini.json := Normal (body_with_text (VString [])) |})
       (lit "hello")
     = Normal (VString Gemini.couldnt_generate).
Proof.
  split; [reflexivity|].
  exact (proj1 (empty_reply_text_falls_back (lit "key")
    (always {| Gemini.status := 200;
               Gemini.json := Normal (body_with_text (VString [])) |})
    (lit "hello") _ _ eq_refl eq_refl eq_refl eq_refl)).
Defined.

(* ===================================================================== *)
(** ** The router *)
(* ===================================================================== *)

Lemma is_string_inv (v : value) :
  isString v = true -> exists s, v = VString s.
Proof. destruct v; try discriminate. eauto. Qed.

Lemma dispatch_gemini apiKey fetch userMessage :
  Router.getBotResponse apiKey fetch userMessage Router.gemini
  = Gemini.getGeminiResponse apiKey fetch userMessage.
Proof. reflexivity. Qed.

Lemma dispatch_other apiKey fetch userMessage (m : Router.AiModel) :
  m <> Router.gemini ->
  Router.getBotResponse apiKey fetch userMessage m
  = Normal (VString (if str_eqb m Router.chatgpt then Router.chatgpt_reply
                     else if str_eqb m Router.claude then Router.claude_reply
                     else Router.unsure_reply)).
Proof.
  intros H. unfold Router.getBotResponse.
  rewrite (str_eqb_neq _ _ H).
  destruct (str_eqb m Router.chatgpt); [reflexivity|].
  destruct (str_eqb m Router.claude); reflexivity.
Qed.

(** The router resolves on every call. *)
Lemma dispatch_resolves apiKey fetch userMessage (m : Router.AiModel) :
  exists v, Router.getBotResponse apiKey fetch userMessage m = Normal v.
Proof.
  destruct (str_eqb m Router.gemini) eqn:E.
  - apply str_eqb_eq in E. subst m. rewrite dispatch_gemini.
    apply gemini_resolves.
  - rewrite dispatch_other; [eauto|].
    intros ->. rewrite str_eqb_refl in E. discriminate.
Qed.

(** C4, as amended.  For every user text and every provider identifier
    [getBotResponse] resolves to a value and never raises.  The value is a
    string for every identifier other than ['gemini'], and for ['gemini']
    whenever the response does not hold a truthy value that is not a string
    at [candidates[0].content.parts[0].text].  For an identifier outside
    ['gemini'], ['chatgpt'], ['claude'] the value is "I'm not sure which
    model you want me to use.". *)
Theorem dispatch_never_raises
    (apiKey : js_string) (fetch : Gemini.Network) (userMessage : js_string)
    (m : Router.AiModel) :
  (exists v, Router.getBotResponse apiKey fetch userMessage m = Normal v)
  /\ (m <> Router.gemini ->
        exists s, Router.getBotResponse apiKey fetch userMessage m
                    = Normal (VString s))
  /\ (m = Router.gemini ->
      (forall r body,
         fetch (Gemini.request apiKey userMessage) = Normal r ->
         Gemini.json r = Normal body ->
         ToBoolean (at_path body reply_path) = true ->
         isString (at_path body reply_path) = true) ->
      exists s, Router.getBotResponse apiKey fetch userMessage m
                  = Normal (VString s))
  /\ (m <> Router.gemini -> m <> Router.chatgpt -> m <> Router.claude ->
        Router.getBotResponse apiKey fetch userMessage m
          = Normal (VString Router.unsure_reply)).
Proof.
  split; [apply dispatch_resolves|]. split; [|split].
  - intros H. rewrite (dispatch_other _ _ _ _ H). eauto.
  - intros -> Hstr. rewrite dispatch_gemini.
    destruct (gemini_cases apiKey fetch userMessage)
      as [E|[E|(r & body & Hf & Hok & Hj & Ht & E)]]; [eauto | eauto |].
    destruct (is_string_inv _ (Hstr r body Hf Hj Ht)) as [s Es].
    exists s. rewrite E, Es. reflexivity.
  - intros Hg Hc Hl. rewrite (dispatch_other _ _ _ _ Hg).
    rewrite (str_eqb_neq _ _ Hc), (str_eqb_neq _ _ Hl). reflexivity.
Qed.

(** An identifier outside the three. *)
Lemma dispatch_never_raises_witness :
  Router.getBotResponse (lit "key") (fun _ => Throw NetworkError)
    (lit "hello") (lit "llama")
  = Normal (VString Router.unsure_reply).
Proof.
  apply (proj2 (proj2 (proj2 (dispatch_never_raises (lit "key")
           (fun _ => Throw NetworkError) (lit "hello") (lit "llama")))));
    discriminate.
Defined.

(** C4 as it is stated fails.  With ['gemini'] selected, status 200 and the
    body [{"candidates":[{"content":{"parts":[{"text":true}]}}]}], the
    router resolves to the boolean [true], which is not a string. *)
Lemma dispatch_returns_string_counterexample :
  Router.getBotResponse (lit "key")
    (always {| Gemini.status := 200;
               Gemini.json := Normal (body_with_text (VBool true)) |})
    (lit "hello") Router.gemini
  = Normal (VBool true)
  /\ ~ (exists s, Router.getBotResponse (lit "key")
          (always {| Gemini.status := 200;
                     Gemini.json := Normal (body_with_text (VBool true)) |})
          (lit "hello") Router.gemini
        = Normal (VString s)).
Proof.
  split; [reflexivity|]. intros [s H]. vm_compute in H. discriminate.
Qed.

(** C5.  For the simulated providers the router resolves to the provider's
    fixed persona string on every call, so two calls with different user
    texts (and whatever the network would do) agree; neither call can
    fail. *)
Theorem simulated_providers_fixed_reply
    (apiKey : js_string) (fetch1 fetch2 : Gemini.Network)
    (t1 t2 : js_string) :
  Router.getBotResponse apiKey fetch1 t1 Router.chatgpt
    = Normal (VString Router.chatgpt_reply)
  /\ Router.getBotResponse apiKey fetch1 t1 Router.claude
    = Normal (VString Router.claude_reply)
  /\ Router.getBotResponse apiKey fetch1 t1 Router.chatgpt
    = Router.getBotResponse apiKey fetch2 t2 Router.chatgpt
  /\ Router.getBotResponse apiKey fetch1 t1 Router.claude
    = Router.getBotResponse apiKey fetch2 t2 Router.claude
  /\ Router.getOpenAIResponse = Normal (VString Router.chatgpt_reply).
Proof. repeat split. Qed.

(* ===================================================================== *)
(** ** The conversation state *)
(* ===================================================================== *)

Lemma nth_error_snoc (A : Type) (l : list A) (x : A) :
  nth_error (l ++ [x]) (List.length l) = Some x.
Proof. induction l as [|a l IH]; simpl; [reflexivity | exact IH]. Qed.

Lemma drop_snoc (A : Type) (l : list A) (x : A) :
  firstn (List.length l) (l ++ [x]) ++ skipn (S (List.length l)) (l ++ [x]) = l.
Proof.
  induction l as [|a l IH]; simpl; [reflexivity|].
  f_equal. exact IH.
Qed.

Lemma nth_error_without_before (A : Type) (l : list A) (i j : nat) :
  i < j -> nth_error (firstn j l ++ skipn (S j) l) i = nth_error l i.
Proof.
  revert i j; induction l as [|a l IH]; intros i j H.
  - destruct j; destruct i; reflexivity.
  - destruct j as [|j]; [lia|]. destruct i as [|i]; [reflexivity|].
    simpl. apply IH. lia.
Qed.

Lemma nth_error_without_after (A : Type) (l : list A) (i j : nat) :
  j < i -> nth_error (firstn j l ++ skipn (S j) l) (i - 1) = nth_error l i.
Proof.
  intros H. destruct i as [|i]; [lia|].
  simpl. rewrite Nat.sub_0_r.
  assert (Hji : j <= i) by lia. clear H.
  revert i j Hji; induction l as [|a l IH]; intros i j Hji.
  - destruct j; destruct i; reflexivity.
  - destruct j as [|j]; [reflexivity|].
    destruct i as [|i]; [lia|]. simpl. apply IH. lia.
Qed.

Lemma nth_error_keep (A : Type) (l : list A) (x y : A) (i : nat) :
  nth_error l i = Some x -> nth_error (l ++ [y]) i = Some x.
Proof.
  revert i; induction l as [|a l IH]; intros [|i]; simpl; try discriminate.
  - trivial.
  - apply IH.
Qed.

Section Conversation.
Variable apiKey : js_string.

Lemma submit_nonblank (w : App.World) :
  trim (App.input (App.ui w)) <> [] ->
  App.handleSendMessage w =
    {| App.ui :=
         {| App.messages := App.messages (App.ui w) ++ [userMessageOf w];
            App.input := [];
            App.isTyping := true;
            App.selectedModel := App.selectedModel (App.ui w) |};
       App.timers := App.timers w ++ [exchangeOf w] |}.
Proof.
  intros H. unfold App.handleSendMessage.
  rewrite (str_eqb_neq _ _ H). reflexivity.
Qed.

Lemma submit_blank (w : App.World) :
  trim (App.input (App.ui w)) = [] -> App.handleSendMessage w = w.
Proof.
  intros H. unfold App.handleSendMessage. rewrite H. reflexivity.
Qed.

(** The callback always gets to its two updates. *)
Lemma callback_appends (fetch : Gemini.Network) (ex : App.Exchange)
    (s : App.State) :
  exists v,
    Router.getBotResponse apiKey fetch (App.trimmedInput ex)
      (App.capturedModel ex) = Normal v
    /\ App.botCallback apiKey fetch ex s =
         {| App.messages := App.messages s ++
              [botMessage v (App.capturedModel ex)];
            App.input := App.input s;
            App.isTyping := false;
            App.selectedModel := App.selectedModel s |}.
Proof.
  destruct (dispatch_resolves apiKey fetch (App.trimmedInput ex)
              (App.capturedModel ex)) as [v E].
  exists v. split; [exact E|].
  unfold App.botCallback. rewrite E. reflexivity.
Qed.

(** C1.  When the trimmed input is not empty, the submission appends one
    user message holding the trimmed text and raises the in-flight flag,
    and the completion of the exchange appends one bot message, holding
    what the router resolved to for the trimmed text and the provider
    selected at the submission, and lowers the flag: after the exchange
    the log is the old log followed by the user message and the bot
    message, in that order, and no callback of the exchange is left. *)
Theorem exchange_appends_user_then_bot
    (w : App.World) (fetch : Gemini.Network) :
  trim (App.input (App.ui w)) <> [] ->
  exists v,
    Router.getBotResponse apiKey fetch (trim (App.input (App.ui w)))
      (App.selectedModel (App.ui w)) = Normal v
    /\ App.messages (App.ui (App.handleSendMessage w))
         = App.messages (App.ui w) ++ [userMessageOf w]
    /\ App.isTyping (App.ui (App.handleSendMessage w)) = true
    /\ App.messages (App.ui (App.run apiKey w
         [App.Submitted; App.Completed (List.length (App.timers w)) fetch]))
       = App.messages (App.ui w) ++
           [userMessageOf w; botMessage v (App.selectedModel (App.ui w))]
    /\ App.isTyping (App.ui (App.run apiKey w
         [App.Submitted; App.Completed (List.length (App.timers w)) fetch]))
       = false
    /\ App.timers (App.run apiKey w
         [App.Submitted; App.Completed (List.length (App.timers w)) fetch])
       = App.timers w.
Proof.
  intros H.
  destruct (callback_appends fetch (exchangeOf w)
              (App.ui (App.handleSendMessage w))) as (v & Ev & Ec).
  exists v. split; [exact Ev|].
  unfold App.run. cbn [fold_left App.step].
  rewrite (submit_nonblank w H) in *. cbn [App.ui App.timers] in *.
  rewrite nth_error_snoc, drop_snoc. cbn [App.ui App.timers].
  rewrite Ec. cbn [App.messages App.isTyping].
  rewrite <- app_assoc. repeat split.
Qed.

(** A pending callback stays as it was scheduled through every event that
    does not complete it, a change of the selected provider included. *)
Lemma step_keeps_pending (w : App.World) (e : App.Event) (i i' : nat)
    (ex : App.Exchange) :
  nth_error (App.timers w) i = Some ex ->
  Closure.shift i e = Some i' ->
  nth_error (App.timers (App.step apiKey w e)) i' = Some ex.
Proof.
  intros Hi. destruct e as [v| |m|j fetch]; cbn [Closure.shift App.step].
  - intros [= <-]. exact Hi.
  - intros [= <-]. unfold App.handleSendMessage.
    destruct (str_eqb (trim (App.input (App.ui w))) []); [exact Hi|].
    cbn [App.timers]. apply nth_error_keep. exact Hi.
  - intros [= <-]. exact Hi.
  - destruct (Nat.eqb j i) eqn:Eji; [discriminate|].
    apply Nat.eqb_neq in Eji.
    destruct (Nat.ltb j i) eqn:Lji; intros [= <-].
    + apply Nat.ltb_lt in Lji.
      destruct (nth_error (App.timers w) j) eqn:Ej.
      * cbn [App.timers]. rewrite nth_error_without_after by exact Lji.
        exact Hi.
      * apply nth_error_None in Ej.
        assert (i < List.length (App.timers w))
          by (apply nth_error_Some; rewrite Hi; discriminate).
        lia.
    + apply Nat.ltb_ge in Lji.
      destruct (nth_error (App.timers w) j) eqn:Ej; [|exact Hi].
      cbn [App.timers]. rewrite nth_error_without_before by lia. exact Hi.
Qed.

Lemma run_keeps_pending (es : list App.Event) (w : App.World) (i k : nat)
    (ex : App.Exchange) :
  nth_error (App.timers w) i = Some ex ->
  Closure.locate i es = Some k ->
  nth_error (App.timers (App.run apiKey w es)) k = Some ex.
Proof.
  revert w i; induction es as [|e es IH]; intros w i Hi Hk.
  - injection Hk as <-. exact Hi.
  - cbn [Closure.locate] in Hk.
    destruct (Closure.shift i e) as [i'|] eqn:Es; [|discriminate].
    change (App.run apiKey w (e :: es))
      with (App.run apiKey (App.step apiKey w e) es).
    apply (IH _ i'); [|exact Hk].
    exact (step_keeps_pending w e i i' ex Hi Es).
Qed.

(** C6.  The bot message an exchange appends carries the provider that
    was selected when the exchange was submitted: the submission stores
    that provider in the callback it schedules, and whatever happens
    between the submission and the completion (typing, further
    submissions, other completions, a change of the selected provider),
    the callback is still pending as it was scheduled, at the place the
    completions before it have left it, and its completion appends a bot
    message tagged with the stored provider, not with the selection current
    at that time. *)
Theorem bot_message_carries_submitted_model
    (w : App.World) (es : list App.Event) (k : nat)
    (fetch : Gemini.Network) :
  trim (App.input (App.ui w)) <> [] ->
  Closure.locate (List.length (App.timers w)) es = Some k ->
  In (exchangeOf w) (App.timers (App.handleSendMessage w))
  /\ nth_error (App.timers (App.run apiKey (App.handleSendMessage w) es)) k
     = Some (exchangeOf w)
  /\ exists v,
       App.messages (App.ui (App.step apiKey
         (App.run apiKey (App.handleSendMessage w) es)
         (App.Completed k fetch)))
       = App.messages (App.ui (App.run apiKey (App.handleSendMessage w) es))
           ++ [botMessage v (App.selectedModel (App.ui w))].
Proof.
  intros H Hk.
  assert (H0 : nth_error (App.timers (App.handleSendMessage w))
                 (List.length (App.timers w)) = Some (exchangeOf w)).
  { rewrite (submit_nonblank w H). cbn [App.timers]. apply nth_error_snoc. }
  pose proof (run_keeps_pending es _ _ k _ H0 Hk) as Hi.
  split; [|split].
  - exact (nth_error_In _ _ H0).
  - exact Hi.
  - cbn [App.step]. rewrite Hi. cbn [App.ui].
    destruct (callback_appends fetch (exchangeOf w)
      (App.ui (App.run apiKey (App.handleSendMessage w) es)))
      as (v & _ & Ec).
    exists v. rewrite Ec. reflexivity.
Qed.

(** C7.  Choosing a provider empties the log, whatever the state. *)
Theorem model_change_clears_messages (m : Router.AiModel) (w : App.World) :
  App.messages (App.ui (App.handleModelChange m w)) = []
  /\ App.selectedModel (App.ui (App.handleModelChange m w)) = m
  /\ App.messages (App.ui (App.step apiKey w (App.ModelChosen m))) = [].
Proof. repeat split. Qed.

(** C8.  A submission whose input is empty after trimming, that is an
    input that is empty or made of white space only, changes nothing:
    the log, the in-flight flag and everything else stay as they were. *)
Theorem blank_submission_ignored (w : App.World) :
  trim (App.input (App.ui w)) = []
  \/ forallb isWhiteSpace (App.input (App.ui w)) = true ->
  App.handleSendMessage w = w
  /\ App.messages (App.ui (App.handleSendMessage w))
       = App.messages (App.ui w)
  /\ App.isTyping (App.ui (App.handleSendMessage w))
       = App.isTyping (App.ui w)
  /\ App.step apiKey w App.Submitted = w.
Proof.
  intros H.
  assert (E : trim (App.input (App.ui w)) = []).
  { destruct H as [H|H]; [exact H | apply trim_nil; exact H]. }
  cbn [App.step]. rewrite (submit_blank w E). repeat split.
Qed.

(** C10.  Choosing the provider that is already selected empties the log
    all the same, and leaves the selection, the in-flight flag, the input
    field and the pending callbacks as they were. *)
Theorem model_change_same_selection (w : App.World) :
  App.messages (App.ui (App.handleModelChange
                          (App.selectedModel (App.ui w)) w)) = []
  /\ App.selectedModel (App.ui (App.handleModelChange
                          (App.selectedModel (App.ui w)) w))
       = App.selectedModel (App.ui w)
  /\ App.isTyping (App.ui (App.handleModelChange
                          (App.selectedModel (App.ui w)) w))
       = App.isTyping (App.ui w)
  /\ App.input (App.ui (App.handleModelChange
                          (App.selectedModel (App.ui w)) w))
       = App.input (App.ui w)
  /\ App.timers (App.handleModelChange (App.selectedModel (App.ui w)) w)
       = App.timers w.
Proof. repeat split. Qed.

End Conversation.

(** The end-to-end scenario of the specification: ["hello"] is submitted
    with ['chatgpt'] selected. *)
Lemma exchange_appends_user_then_bot_witness :
  trim (App.input (App.ui
    (App.run (lit "key") App.initial
       [App.ModelChosen Router.chatgpt; App.Typed (lit "hello")]))) <> []
  /\ App.messages (App.ui
       (App.run (lit "key") App.initial
          [App.ModelChosen Router.chatgpt; App.Typed (lit "hello");
           App.Submitted; App.Completed 0 (fun _ => Throw NetworkError)]))
     = [ {| App.text := VString (lit "hello"); App.sender := App.user;
            App.model := None |};
         {| App.text := VString Router.chatgpt_reply; App.sender := App.bot;
            App.model := Some Router.chatgpt |} ]
  /\ App.isTyping (App.ui
       (App.run (lit "key") App.initial
          [App.ModelChosen Router.chatgpt; App.Typed (lit "hello");
           App.Submitted; App.Completed 0 (fun _ => Throw NetworkError)]))
     = false.
Proof.
  assert (H : trim (App.input (App.ui
    (App.run (lit "key") App.initial
       [App.ModelChosen Router.chatgpt; App.Typed (lit "hello")]))) <> [])
    by (vm_compute; discriminate).
  split; [exact H|].
  destruct (exchange_appends_user_then_bot (lit "key")
              (App.run (lit "key") App.initial
                 [App.ModelChosen Router.chatgpt; App.Typed (lit "hello")])
              (fun _ => Throw NetworkError) H)
    as (v & Ev & _ & _ & Em & Et & _).
  assert (Hv : v = VString Router.chatgpt_reply)
    by (vm_compute in Ev; injection Ev as <-; reflexivity).
  subst v. split; [exact Em | exact Et].
Defined.

(** ["first"] and then ["hello"] are submitted with ['chatgpt'] selected;
    while both are in flight ['claude'] is chosen, the first exchange
    completes and the user types; then the exchange of ["hello"], now the
    first of the pending callbacks, completes: its message is tagged
    ['chatgpt']. *)
Lemma bot_message_carries_submitted_model_witness :
  App.selectedModel (App.ui
    (App.run (lit "key") App.initial
       [App.ModelChosen Router.chatgpt; App.Typed (lit "first");
        App.Submitted; App.Typed (lit "hello"); App.Submitted;
        App.ModelChosen Router.claude;
        App.Completed 0 (fun _ => Throw NetworkError);
        App.Typed (lit "x")])) = Router.claude
  /\ exists v,
       App.messages (App.ui
         (App.run (lit "key") App.initial
            [App.ModelChosen Router.chatgpt; App.Typed (lit "first");
             App.Submitted; App.Typed (lit "hello"); App.Submitted;
             App.ModelChosen Router.claude;
             App.Completed 0 (fun _ => Throw NetworkError);
             App.Typed (lit "x");
             App.Completed 0 (fun _ => Throw NetworkError)]))
       = [ {| App.text := VString Router.chatgpt_reply;
              App.sender := App.bot; App.model := Some Router.chatgpt |};
           {| App.text := v; App.sender := App.bot;
              App.model := Some Router.chatgpt |} ].
Proof.
  split; [reflexivity|].
  refine (proj2 (proj2 (bot_message_carries_submitted_model (lit "key")
    (App.run (lit "key") App.initial
       [App.ModelChosen Router.chatgpt; App.Typed (lit "first");
        App.Submitted; App.Typed (lit "hello")])
    [App.ModelChosen Router.claude;
     App.Completed 0 (fun _ => Throw NetworkError); App.Typed (lit "x")]
    0 (fun _ => Throw NetworkError) _ _))).
  - vm_compute; discriminate.
  - reflexivity.
Defined.

(** An input of three spaces and a tab. *)
Lemma blank_submission_ignored_witness :
  forallb isWhiteSpace [32; 32; 32; 9]%N = true
  /\ App.handleSendMessage
       (App.handleInputChange [32; 32; 32; 9]%N App.initial)
     = App.handleInputChange [32; 32; 32; 9]%N App.initial.
Proof.
  split; [reflexivity|].
  apply (blank_submission_ignored (lit "key")
           (App.handleInputChange [32; 32; 32; 9]%N App.initial)).
  right; reflexivity.
Defined.

(* ===================================================================== *)
(** ** Further properties: what [trim] keeps *)
(* ===================================================================== *)

Lemma trimStart_split (s : js_string) :
  exists l, s = l ++ trimStart s /\ forallb isWhiteSpace l = true.
Proof.
  induction s as [|c s [l [E Hl]]]; simpl.
  - exists []. split; reflexivity.
  - destruct (isWhiteSpace c) eqn:Hc.
    + exists (c :: l). simpl. rewrite Hc, Hl. split; [f_equal; exact E|auto].
    + exists []. split; reflexivity.
Qed.

Lemma trimStart_fixed (s : js_string) :
  (forall c r, s = c :: r -> isWhiteSpace c = false) -> trimStart s = s.
Proof.
  destruct s as [|c r]; simpl; [reflexivity|].
  intros H. rewrite (H c r eq_refl). reflexivity.
Qed.

Lemma trimStart_idem (s : js_string) : trimStart (trimStart s) = trimStart s.
Proof.
  apply trimStart_fixed. intros c r E. exact (trimStart_head s c r E).
Qed.

(** The input is its trimmed text between two runs of white space. *)
Lemma trim_split (s : js_string) :
  exists l r, s = l ++ trim s ++ r
    /\ forallb isWhiteSpace l = true /\ forallb isWhiteSpace r = true.
Proof.
  destruct (trimStart_split s) as [l [El Hl]].
  destruct (trimStart_split (rev (trimStart s))) as [r' [Er Hr]].
  exists l, (rev r'). split; [|split].
  - unfold trim, trimEnd. rewrite <- rev_app_distr, <- Er, rev_involutive.
    exact El.
  - exact Hl.
  - rewrite forallb_rev. exact Hr.
Qed.

Lemma trim_first (s : js_string) c r :
  trim s = c :: r -> isWhiteSpace c = false.
Proof.
  intros E.
  destruct (trimStart_split (rev (trimStart s))) as [r' [Er _]].
  apply (f_equal (@rev code_unit)) in Er.
  rewrite rev_involutive, rev_app_distr in Er.
  change (rev (trimStart (rev (trimStart s)))) with (trim s) in Er.
  rewrite E in Er. simpl in Er.
  exact (trimStart_head s c _ Er).
Qed.

Lemma trim_last (s : js_string) x c :
  trim s = x ++ [c] -> isWhiteSpace c = false.
Proof.
  unfold trim, trimEnd. intros E.
  apply (f_equal (@rev code_unit)) in E.
  rewrite rev_involutive, rev_app_distr in E. simpl in E.
  exact (trimStart_head _ c _ E).
Qed.

Lemma trim_idem (s : js_string) : trim (trim s) = trim s.
Proof.
  assert (H1 : trimStart (trim s) = trim s).
  { apply trimStart_fixed. intros c r E. exact (trim_first s c r E). }
  unfold trim at 1. rewrite H1.
  unfold trim, trimEnd. rewrite rev_involutive, trimStart_idem. reflexivity.
Qed.

Lemma trimmed_trim (s : js_string) :
  trim s <> [] -> Log.trimmed (trim s) = true.
Proof.
  intros H. unfold Log.trimmed.
  rewrite (str_eqb_neq _ _ H), trim_idem, str_eqb_refl. reflexivity.
Qed.

(* ===================================================================== *)
(** ** Further properties: the live provider and the router *)
(* ===================================================================== *)

Lemma gemini_truthy apiKey fetch userMessage :
  exists v, Gemini.getGeminiResponse apiKey fetch userMessage = Normal v
            /\ ToBoolean v = true.
Proof.
  destruct (gemini_cases apiKey fetch userMessage)
    as [E|[E|(r & body & _ & _ & _ & Ht & E)]]; rewrite E; eauto.
Qed.

Lemma reply_truthy apiKey fetch userMessage (m : Router.AiModel) :
  exists v, Router.getBotResponse apiKey fetch userMessage m = Normal v
            /\ ToBoolean v = true.
Proof.
  destruct (str_eqb m Router.gemini) eqn:E.
  - apply str_eqb_eq in E. subst m. rewrite dispatch_gemini.
    apply gemini_truthy.
  - rewrite dispatch_other.
    + eexists; split; [reflexivity|].
      destruct (str_eqb m Router.chatgpt); [reflexivity|].
      destruct (str_eqb m Router.claude); reflexivity.
    + intros ->. rewrite str_eqb_refl in E. discriminate.
Qed.

(** On a response in the success range whose body is the JSON text [null],
    reading [result.candidates] throws inside the [try]: the call resolves
    to the network-issue string, as it does for a failed request. *)
Theorem null_body_is_a_network_issue
    (apiKey : js_string) (fetch : Gemini.Network) (userMessage : js_string)
    (r : Gemini.Response) :
  fetch (Gemini.request apiKey userMessage) = Normal r ->
  Gemini.ok r = true ->
  Gemini.json r = Normal VNull ->
  Gemini.getGeminiResponse apiKey fetch userMessage
    = Normal (VString Gemini.network_issue).
Proof.
  intros Hf Hok Hj. unfold Gemini.getGeminiResponse, Gemini.attempt.
  rewrite Hf. cbn [bind]. rewrite Hok. cbn [negb]. rewrite Hj. reflexivity.
Qed.

Lemma null_body_is_a_network_issue_witness :
  Gemini.getGeminiResponse (lit "key")
    (always {| Gemini.status := 200; Gemini.json := Normal VNull |})
    (lit "hello")
  = Normal (VString Gemini.network_issue).
Proof.
  exact (null_body_is_a_network_issue (lit "key")
           (always {| Gemini.status := 200; Gemini.json := Normal VNull |})
           (lit "hello") _ eq_refl eq_refl eq_refl).
Defined.

(** Whatever the network does, the live provider resolves to a truthy
    value, and to one of three: the network-issue string, the "couldn't
    generate a response" string, or the value read at
    [candidates[0].content.parts[0].text] of a body, other than [null], that
    came with a status in the success range. *)
Theorem live_provider_outcomes
    (apiKey : js_string) (fetch : Gemini.Network) (userMessage : js_string) :
  exists v,
    Gemini.getGeminiResponse apiKey fetch userMessage = Normal v
    /\ ToBoolean v = true
    /\ (v = VString Gemini.network_issue
        \/ v = VString Gemini.couldnt_generate
        \/ exists r body,
             fetch (Gemini.request apiKey userMessage) = Normal r
             /\ Gemini.ok r = true
             /\ Gemini.json r = Normal body
             /\ isNullish body = false
             /\ v = at_path body reply_path).
Proof.
  destruct (gemini_cases apiKey fetch userMessage)
    as [E|[E|(r & body & Hf & Hok & Hj & Ht & E)]].
  - eexists. split; [exact E|]. split; [reflexivity|]. left; reflexivity.
  - eexists. split; [exact E|]. split; [reflexivity|].
    right; left; reflexivity.
  - exists (at_path body reply_path). split; [exact E|].
    split; [exact Ht|]. right; right. exists r, body.
    repeat split; try assumption.
    destruct body; try reflexivity; discriminate.
Qed.

(** Only the first candidate and its first part are read.  On a body in
    the success range that is an object whose [candidates] is an array
    starting with an object, whose [content] is an object whose [parts] is
    an array starting with an object, the reply is the [text] of that part
    when it is truthy and the "couldn't generate a response" string
    otherwise, whatever candidates and parts follow and whatever other
    properties, before or after the ones read, the body, the candidate, its
    content and the part hold. *)
Theorem first_candidate_first_part_decide
    (apiKey : js_string) (fetch : Gemini.Network) (userMessage : js_string)
    (r : Gemini.Response)
    (props candidate cont part : list (js_string * value))
    (more_candidates more_parts : list value) :
  fetch (Gemini.request apiKey userMessage) = Normal r ->
  Gemini.ok r = true ->
  Gemini.json r = Normal (VObject props) ->
  own_property props (lit "candidates")
    = VArray (VObject candidate :: more_candidates) ->
  own_property candidate (lit "content") = VObject cont ->
  own_property cont (lit "parts") = VArray (VObject part :: more_parts) ->
  Gemini.getGeminiResponse apiKey fetch userMessage
    = Normal (if ToBoolean (own_property part (lit "text"))
              then own_property part (lit "text")
              else VString Gemini.couldnt_generate).
Proof.
  intros Hf Hok Hj Hc Hn Hp.
  rewrite (gemini_parsed apiKey fetch userMessage r _ Hf Hok Hj eq_refl).
  assert (E : at_path (VObject props) reply_path
              = own_property part (lit "text")).
  { unfold at_path, reply_path. cbn [fold_left].
    change (read (VObject props) Gemini.candidates)
      with (own_property props (lit "candidates")).
    rewrite Hc.
    change (read (VArray (VObject candidate :: more_candidates)) (Index 0))
      with (VObject candidate).
    change (read (VObject candidate) Gemini.content)
      with (own_property candidate (lit "content")).
    rewrite Hn.
    change (read (VObject cont) Gemini.parts)
      with (own_property cont (lit "parts")).
    rewrite Hp. reflexivity. }
  rewrite E. reflexivity.
Qed.

(** A body with [usageMetadata] before [candidates], [role] before [parts],
    two parts and two candidates. *)
Lemma first_candidate_first_part_decide_witness :
  Gemini.getGeminiResponse (lit "key")
    (always {| Gemini.status := 200;
               Gemini.json := Normal
     (VObject [(lit "usageMetadata", VObject []);
               (lit "candidates",
        VArray [VObject [(lit "finishReason", VString (lit "STOP"));
                         (lit "content",
          VObject [(lit "role", VString (lit "model"));
                   (lit "parts",
            VArray [VObject [(lit "thought", VBool false);
                             (lit "text", VString (lit "first"))];
                    VObject [(lit "text", VString (lit "second"))]])])];
                VObject [(lit "content", VNull)]])]) |})
    (lit "hello")
  = Normal (VString (lit "first")).
Proof.
  exact (first_candidate_first_part_decide (lit "key")
    (always {| Gemini.status := 200;
               Gemini.json := Normal
     (VObject [(lit "usageMetadata", VObject []);
               (lit "candidates",
        VArray [VObject [(lit "finishReason", VString (lit "STOP"));
                         (lit "content",
          VObject [(lit "role", VString (lit "model"));
                   (lit "parts",
            VArray [VObject [(lit "thought", VBool false);
                             (lit "text", VString (lit "first"))];
                    VObject [(lit "text", VString (lit "second"))]])])];
                VObject [(lit "content", VNull)]])]) |})
    (lit "hello") _ _ _ _ _ _ _ eq_refl eq_refl eq_refl eq_refl eq_refl
    eq_refl).
Defined.

(** The router consults the network for ['gemini'] only, and there only
    through the one request built from the key and the user message: two
    networks that agree on that request give the same reply, and for every
    other identifier the reply depends neither on the network, nor on the
    key, nor on the user message. *)
Theorem router_consults_network_once
    (apiKey : js_string) (fetch1 fetch2 : Gemini.Network)
    (userMessage : js_string) (m : Router.AiModel) :
  (m = Router.gemini ->
   fetch1 (Gemini.request apiKey userMessage)
   = fetch2 (Gemini.request apiKey userMessage)) ->
  Router.getBotResponse apiKey fetch1 userMessage m
  = Router.getBotResponse apiKey fetch2 userMessage m
  /\ (m <> Router.gemini ->
      forall apiKey' userMessage',
        Router.getBotResponse apiKey fetch1 userMessage m
        = Router.getBotResponse apiKey' fetch2 userMessage' m).
Proof.
  intros H. split.
  - destruct (str_eqb m Router.gemini) eqn:E.
    + apply str_eqb_eq in E. subst m. rewrite !dispatch_gemini.
      unfold Gemini.getGeminiResponse, Gemini.attempt.
      rewrite (H eq_refl). reflexivity.
    + assert (Hne : m <> Router.gemini).
      { intros ->. rewrite str_eqb_refl in E. discriminate. }
      rewrite !(dispatch_other _ _ _ _ Hne). reflexivity.
  - intros Hne apiKey' userMessage'.
    rewrite !(dispatch_other _ _ _ _ Hne). reflexivity.
Qed.

(** Two networks that differ everywhere but on the request of the call. *)
Lemma router_consults_network_once_witness :
  Router.getBotResponse (lit "key")
    (always {| Gemini.status := 200;
               Gemini.json := Normal (body_with_text (VString (lit "Hi there"))) |})
    (lit "hello") Router.gemini
  = Router.getBotResponse (lit "key")
      (fun req =>
         if str_eqb (Gemini.url req) (Gemini.apiUrl (lit "key"))
         then Normal {| Gemini.status := 200;
                        Gemini.json := Normal (body_with_text (VString (lit "Hi there"))) |}
         else Throw NetworkError)
      (lit "hello") Router.gemini.
Proof.
  refine (proj1 (router_consults_network_once (lit "key") _ _ (lit "hello")
                   Router.gemini _)).
  intros _. reflexivity.
Defined.

(** The request of the live provider carries the user message as it is at
    [contents[0].parts[0].text] and the system prompt at
    [systemInstruction.parts[0].text]; the key appears in the URL only; and
    two calls send the same request only when they have the same key and
    the same user message. *)
Theorem request_carries_user_message (apiKey userMessage : js_string) :
  at_path (Gemini.body (Gemini.request apiKey userMessage)) Log.contents_path
    = VString userMessage
  /\ at_path (Gemini.body (Gemini.request apiKey userMessage))
       Log.instruction_path
     = VString Gemini.systemPrompt
  /\ (forall apiKey',
        Gemini.body (Gemini.request apiKey' userMessage)
        = Gemini.body (Gemini.request apiKey userMessage))
  /\ (forall apiKey' userMessage',
        Gemini.request apiKey userMessage
        = Gemini.request apiKey' userMessage' ->
        apiKey = apiKey' /\ userMessage = userMessage').
Proof.
  split; [reflexivity|]. split; [reflexivity|]. split; [reflexivity|].
  intros apiKey' userMessage' H.
  pose proof (f_equal Gemini.url H) as Hu.
  pose proof (f_equal (fun q => at_path (Gemini.body q) Log.contents_path) H)
    as Hb.
  cbn beta in Hb.
  change (at_path (Gemini.body (Gemini.request apiKey userMessage))
            Log.contents_path) with (VString userMessage) in Hb.
  change (at_path (Gemini.body (Gemini.request apiKey' userMessage'))
            Log.contents_path) with (VString userMessage') in Hb.
  split.
  - unfold Gemini.request, Gemini.apiUrl in Hu. cbn [Gemini.url] in Hu.
    exact (app_inv_head _ _ _ Hu).
  - congruence.
Qed.

(* ===================================================================== *)
(** ** Further properties: submissions *)
(* ===================================================================== *)

Lemma trimStart_skips (l t : js_string) :
  forallb isWhiteSpace l = true -> trimStart (l ++ t) = trimStart t.
Proof.
  induction l as [|c l IH]; simpl; [reflexivity|].
  intros H. apply andb_true_iff in H. destruct H as [Hc Hl].
  rewrite Hc. exact (IH Hl).
Qed.

(** [trim] on a text with margins of white space around a core that
    neither starts nor ends with white space. *)
Lemma trim_margins (l s r : js_string) :
  forallb isWhiteSpace l = true ->
  forallb isWhiteSpace r = true ->
  (forall c x, s = c :: x -> isWhiteSpace c = false) ->
  (forall x c, s = x ++ [c] -> isWhiteSpace c = false) ->
  trim (l ++ s ++ r) = s.
Proof.
  intros Hl Hr Hfirst Hlast.
  destruct s as [|c x].
  - simpl. apply trim_nil. rewrite forallb_app, Hl, Hr. reflexivity.
  - unfold trim, trimEnd. rewrite (trimStart_skips _ _ Hl).
    rewrite (trimStart_fixed ((c :: x) ++ r)).
    + rewrite rev_app_distr, trimStart_skips
        by (rewrite forallb_rev; exact Hr).
      rewrite trimStart_fixed; [apply rev_involutive|].
      intros d y E. apply (Hlast (rev y) d).
      rewrite <- (rev_involutive (c :: x)), E. reflexivity.
    + intros d y [= <- _]. exact (Hfirst c x eq_refl).
Qed.

(** A second submission through the handler of the next render is
    ignored: the first submission has cleared the input that handler reads,
    so it returns at the empty-input test.  The handler of one render run
    twice with no render between, reading the same [input] constant both
    times, appends the user message twice and schedules two callbacks. *)
Theorem second_submission_is_ignored (w : App.World) :
  Closure.handleSendMessageOf (App.ui w) w = App.handleSendMessage w
  /\ Closure.handleSendMessageOf (App.ui (App.handleSendMessage w))
       (App.handleSendMessage w)
     = App.handleSendMessage w
  /\ (trim (App.input (App.ui w)) <> [] ->
      App.messages (App.ui (Closure.handleSendMessageOf (App.ui w)
                              (Closure.handleSendMessageOf (App.ui w) w)))
      = App.messages (App.ui w) ++ [userMessageOf w; userMessageOf w]
      /\ App.timers (Closure.handleSendMessageOf (App.ui w)
                       (Closure.handleSendMessageOf (App.ui w) w))
         = App.timers w ++ [exchangeOf w; exchangeOf w]).
Proof.
  split; [reflexivity|]. split.
  - destruct (str_eqb (trim (App.input (App.ui w))) []) eqn:E.
    + apply str_eqb_eq in E. rewrite (submit_blank w E).
      unfold Closure.handleSendMessageOf. rewrite E. reflexivity.
    + assert (H : trim (App.input (App.ui w)) <> []).
      { intros H. rewrite H in E. discriminate. }
      rewrite (submit_nonblank w H). reflexivity.
  - intros H. unfold Closure.handleSendMessageOf.
    rewrite (str_eqb_neq _ _ H). cbn [App.ui App.timers App.messages].
    rewrite <- !app_assoc. split; reflexivity.
Qed.

(** ["hello"] submitted twice through the handler of the first render. *)
Lemma second_submission_is_ignored_witness :
  List.length (App.messages (App.ui
    (Closure.handleSendMessageOf
       (App.ui (App.handleInputChange (lit "hello") App.initial))
       (Closure.handleSendMessageOf
          (App.ui (App.handleInputChange (lit "hello") App.initial))
          (App.handleInputChange (lit "hello") App.initial))))) = 2
  /\ List.length (App.timers
    (Closure.handleSendMessageOf
       (App.ui (App.handleInputChange (lit "hello") App.initial))
       (Closure.handleSendMessageOf
          (App.ui (App.handleInputChange (lit "hello") App.initial))
          (App.handleInputChange (lit "hello") App.initial)))) = 2.
Proof.
  assert (H : trim (App.input (App.ui
                (App.handleInputChange (lit "hello") App.initial))) <> [])
    by (vm_compute; discriminate).
  destruct (proj2 (proj2 (second_submission_is_ignored
              (App.handleInputChange (lit "hello") App.initial))) H)
    as [Em Et].
  rewrite Em, Et. split; reflexivity.
Defined.

(** The submission strips the margins of white space of the input and
    nothing else: when the input is a core, not empty and neither starting
    nor ending with white space, between two runs of white space, the user
    message appended holds exactly the core, white space inside it
    included, and the input field is emptied. *)
Theorem submission_strips_margins_only
    (w : App.World) (l s r : js_string) :
  App.input (App.ui w) = l ++ s ++ r ->
  forallb isWhiteSpace l = true ->
  forallb isWhiteSpace r = true ->
  s <> [] ->
  (forall c x, s = c :: x -> isWhiteSpace c = false) ->
  (forall x c, s = x ++ [c] -> isWhiteSpace c = false) ->
  App.messages (App.ui (App.handleSendMessage w))
    = App.messages (App.ui w)
        ++ [{| App.text := VString s; App.sender := App.user;
               App.model := None |}]
  /\ App.input (App.ui (App.handleSendMessage w)) = []
  /\ App.timers (App.handleSendMessage w)
     = App.timers w
         ++ [{| App.trimmedInput := s;
                App.capturedModel := App.selectedModel (App.ui w) |}].
Proof.
  intros Hi Hl Hr Hne Hfirst Hlast.
  assert (E : trim (App.input (App.ui w)) = s).
  { rewrite Hi. apply trim_margins; assumption. }
  assert (Hn : trim (App.input (App.ui w)) <> []) by (rewrite E; exact Hne).
  rewrite (submit_nonblank w Hn). unfold userMessageOf, exchangeOf.
  rewrite E. repeat split.
Qed.

(** The input is two spaces, [hi there], a space and a tab. *)
Lemma submission_strips_margins_only_witness :
  App.messages (App.ui (App.handleSendMessage
    (App.handleInputChange
       ([32; 32]%N ++ lit "hi there" ++ [32; 9]%N) App.initial)))
  = [{| App.text := VString (lit "hi there"); App.sender := App.user;
        App.model := None |}].
Proof.
  refine (proj1 (submission_strips_margins_only
    (App.handleInputChange
       ([32; 32]%N ++ lit "hi there" ++ [32; 9]%N) App.initial)
    [32; 32]%N (lit "hi there") [32; 9]%N eq_refl eq_refl eq_refl _ _ _)).
  - discriminate.
  - intros c x [= <- _]. reflexivity.
  - intros x c E.
    apply (f_equal (@rev code_unit)) in E. rewrite rev_app_distr in E.
    vm_compute in E. injection E as <- _. reflexivity.
Defined.

(* ===================================================================== *)
(** ** Further properties: what every run of the page keeps *)
(* ===================================================================== *)

Lemma forallb_firstn (A : Type) (f : A -> bool) (n : nat) (l : list A) :
  forallb f l = true -> forallb f (firstn n l) = true.
Proof.
  revert n; induction l as [|a l IH]; intros [|n]; simpl; auto.
  intros H. apply andb_true_iff in H. destruct H as [Ha Hl].
  rewrite Ha. exact (IH n Hl).
Qed.

Lemma forallb_skipn (A : Type) (f : A -> bool) (n : nat) (l : list A) :
  forallb f l = true -> forallb f (skipn n l) = true.
Proof.
  revert n; induction l as [|a l IH]; intros [|n]; simpl; auto.
  intros H. apply andb_true_iff in H. destruct H as [_ Hl]. exact (IH n Hl).
Qed.

Lemma forallb_without (A : Type) (f : A -> bool) (i : nat) (l : list A) :
  forallb f l = true -> forallb f (firstn i l ++ skipn (S i) l) = true.
Proof.
  intros H. rewrite forallb_app, forallb_firstn, forallb_skipn by exact H.
  reflexivity.
Qed.

Lemma forallb_nth_error (A : Type) (f : A -> bool) (i : nat) (l : list A) x :
  forallb f l = true -> nth_error l i = Some x -> f x = true.
Proof.
  intros H E. rewrite forallb_forall in H. apply H.
  exact (nth_error_In l i E).
Qed.

Lemma forallb_snoc (A : Type) (f : A -> bool) (l : list A) (x : A) :
  forallb f l = true -> f x = true -> forallb f (l ++ [x]) = true.
Proof.
  intros Hl Hx. rewrite forallb_app, Hl. simpl. rewrite Hx. reflexivity.
Qed.

Lemma length_without (A : Type) (i : nat) (l : list A) x :
  nth_error l i = Some x ->
  S (List.length (firstn i l ++ skipn (S i) l)) = List.length l.
Proof.
  revert i; induction l as [|a l IH]; intros [|i]; simpl; try discriminate.
  - reflexivity.
  - intros E. f_equal. exact (IH i E).
Qed.

Lemma count_snoc (A : Type) (f : A -> bool) (l : list A) (x : A) :
  List.length (filter f (l ++ [x]))
  = List.length (filter f l) + (if f x then 1 else 0).
Proof.
  rewrite filter_app, length_app. simpl. destruct (f x); reflexivity.
Qed.

Lemma run_snoc apiKey (w : App.World) (es : list App.Event) (e : App.Event) :
  App.run apiKey w (es ++ [e]) = App.step apiKey (App.run apiKey w es) e.
Proof. unfold App.run. rewrite fold_left_app. reflexivity. Qed.

Lemma run_cons apiKey (w : App.World) (e : App.Event) (es : list App.Event) :
  App.run apiKey w (e :: es) = App.run apiKey (App.step apiKey w e) es.
Proof. reflexivity. Qed.

Section Runs.
Variable apiKey : js_string.

Lemma step_world_ok (w : App.World) (e : App.Event) :
  Log.world_ok w = true -> Log.world_ok (App.step apiKey w e) = true.
Proof.
  unfold Log.world_ok. intros H. apply andb_true_iff in H.
  destruct H as [Hm Ht]. destruct e as [v| |m|i fetch]; cbn [App.step].
  - cbn. rewrite Hm, Ht. reflexivity.
  - destruct (str_eqb (trim (App.input (App.ui w))) []) eqn:E.
    + apply str_eqb_eq in E. rewrite (submit_blank w E), Hm, Ht. reflexivity.
    + assert (Hn : trim (App.input (App.ui w)) <> []).
      { intros Hn. rewrite Hn in E. discriminate. }
      rewrite (submit_nonblank w Hn). cbn [App.ui App.timers App.messages].
      rewrite !forallb_snoc; auto.
      * exact (trimmed_trim _ Hn).
      * unfold Log.message_ok, userMessageOf. cbn.
        exact (trimmed_trim _ Hn).
  - cbn. exact Ht.
  - destruct (nth_error (App.timers w) i) as [ex|] eqn:E.
    + cbn [App.ui App.timers]. rewrite (forallb_without _ _ _ _ Ht).
      destruct (reply_truthy apiKey fetch (App.trimmedInput ex)
                  (App.capturedModel ex)) as (v & Ev & Hv).
      unfold App.botCallback. rewrite Ev. cbn [App.messages].
      rewrite forallb_snoc; auto.
      unfold Log.message_ok. cbn.
      destruct v as [| | | |[|c s]| |]; try reflexivity; discriminate.
    + rewrite Hm, Ht. reflexivity.
Qed.

Lemma run_world_ok (es : list App.Event) (w : App.World) :
  Log.world_ok w = true -> Log.world_ok (App.run apiKey w es) = true.
Proof.
  revert w; induction es as [|e es IH]; intros w H; [exact H|].
  rewrite run_cons. apply IH. apply step_world_ok. exact H.
Qed.

Lemma step_providers_known (w : App.World) (e : App.Event) :
  Log.providers_known w = true -> Log.from_page e = true ->
  Log.providers_known (App.step apiKey w e) = true.
Proof.
  unfold Log.providers_known. intros H He.
  apply andb_true_iff in H. destruct H as [H Hm].
  apply andb_true_iff in H. destruct H as [Hs Ht].
  destruct e as [v| |m|i fetch]; cbn [App.step].
  - cbn [App.handleInputChange App.ui App.timers App.messages
         App.selectedModel].
    rewrite Hs, Ht, Hm. reflexivity.
  - destruct (str_eqb (trim (App.input (App.ui w))) []) eqn:E.
    + apply str_eqb_eq in E. rewrite (submit_blank w E), Hs, Ht, Hm.
      reflexivity.
    + assert (Hn : trim (App.input (App.ui w)) <> []).
      { intros Hn. rewrite Hn in E. discriminate. }
      rewrite (submit_nonblank w Hn).
      cbn [App.ui App.timers App.messages App.selectedModel].
      rewrite Hs, !forallb_snoc; auto.
  - cbn [App.handleModelChange App.ui App.timers App.messages
         App.selectedModel forallb].
    cbn [Log.from_page] in He. rewrite He, Ht. reflexivity.
  - destruct (nth_error (App.timers w) i) as [ex|] eqn:E.
    + cbn [App.ui App.timers]. rewrite (forallb_without _ _ _ _ Ht).
      pose proof (forallb_nth_error _ _ _ _ _ Ht E) as Hex. cbn beta in Hex.
      destruct (callback_appends apiKey fetch ex (App.ui w))
        as (v & _ & Ec).
      rewrite Ec. cbn [App.messages App.selectedModel].
      rewrite Hs, forallb_snoc; auto.
    + rewrite Hs, Ht, Hm. reflexivity.
Qed.

Lemma run_providers_known (es : list App.Event) (w : App.World) :
  Log.providers_known w = true -> forallb Log.from_page es = true ->
  Log.providers_known (App.run apiKey w es) = true.
Proof.
  revert w; induction es as [|e es IH]; intros w H Hes; [exact H|].
  simpl in Hes. apply andb_true_iff in Hes. destruct Hes as [He Hes].
  rewrite run_cons. apply IH; [|exact Hes].
  apply step_providers_known; assumption.
Qed.

End Runs.

Lemma known_in (m : Router.AiModel) :
  Log.known m = true -> In m View.buttons.
Proof.
  unfold Log.known. intros H. apply existsb_exists in H.
  destruct H as (b & Hb & E). apply str_eqb_eq in E. subst b. exact Hb.
Qed.

Lemma button_class (s : App.State) (b : Router.AiModel) :
  View.getButtonClassName s b
  = if str_eqb (App.selectedModel s) b then lit "model-button active"
    else lit "model-button ".
Proof.
  unfold View.getButtonClassName.
  destruct (str_eqb (App.selectedModel s) b); reflexivity.
Qed.

Section Invariants.
Variable apiKey : js_string.

(** In every run of the page from a well-formed world, the first render
    among them, every user message of the log holds a text that is not
    empty and has no white space at either end, and no provider; every bot
    message holds a provider and a text other than the empty string. *)
Theorem log_messages_well_formed
    (w : App.World) (es : list App.Event) (msg : App.ChatMessage) :
  Log.world_ok w = true ->
  In msg (App.messages (App.ui (App.run apiKey w es))) ->
  match App.sender msg with
  | App.user =>
      exists s, App.text msg = VString s /\ s <> [] /\ trim s = s
                /\ App.model msg = None
  | App.bot =>
      App.text msg <> VString [] /\ exists m, App.model msg = Some m
  end.
Proof.
  intros Hw Hin.
  pose proof (run_world_ok apiKey es w Hw) as H.
  unfold Log.world_ok in H. apply andb_true_iff in H. destruct H as [H _].
  rewrite forallb_forall in H. specialize (H msg Hin).
  unfold Log.message_ok in H.
  destruct (App.sender msg).
  - destruct (App.text msg) as [| | | |s| |]; try discriminate.
    destruct (App.model msg); [discriminate|].
    unfold Log.trimmed in H. apply andb_true_iff in H. destruct H as [H1 H2].
    exists s. repeat split.
    + intros ->. discriminate.
    + apply str_eqb_eq. exact H2.
  - destruct (App.model msg) as [m|]; [|discriminate].
    split; [|eauto].
    destruct (App.text msg) as [| | | |[|c s]| |]; discriminate.
Qed.

(** When providers are chosen through the three buttons only, the selected
    provider, the provider every pending callback has captured and the
    provider every message of the log is tagged with are among ['gemini'],
    ['chatgpt'] and ['claude']: the [default] branch of the router is never
    reached from the page. *)
Theorem page_keeps_known_providers (w : App.World) (es : list App.Event) :
  Log.providers_known w = true ->
  forallb Log.from_page es = true ->
  In (App.selectedModel (App.ui (App.run apiKey w es))) View.buttons
  /\ (forall ex, In ex (App.timers (App.run apiKey w es)) ->
        In (App.capturedModel ex) View.buttons)
  /\ (forall msg m, In msg (App.messages (App.ui (App.run apiKey w es))) ->
        App.model msg = Some m -> In m View.buttons)
  /\ (forall ex fetch, In ex (App.timers (App.run apiKey w es)) ->
        Router.getBotResponse apiKey fetch (App.trimmedInput ex)
          (App.capturedModel ex)
        = Gemini.getGeminiResponse apiKey fetch (App.trimmedInput ex)
        \/ Router.getBotResponse apiKey fetch (App.trimmedInput ex)
             (App.capturedModel ex)
           = Normal (VString Router.chatgpt_reply)
        \/ Router.getBotResponse apiKey fetch (App.trimmedInput ex)
             (App.capturedModel ex)
           = Normal (VString Router.claude_reply)).
Proof.
  intros Hw Hes.
  pose proof (run_providers_known apiKey es w Hw Hes) as H.
  unfold Log.providers_known in H.
  apply andb_true_iff in H. destruct H as [H Hm].
  apply andb_true_iff in H. destruct H as [Hs Ht].
  split; [exact (known_in _ Hs)|]. split; [|split].
  - intros ex Hex. rewrite forallb_forall in Ht. exact (known_in _ (Ht ex Hex)).
  - intros msg m Hmsg E. rewrite forallb_forall in Hm.
    specialize (Hm msg Hmsg). unfold Log.tag_known in Hm. rewrite E in Hm.
    exact (known_in _ Hm).
  - intros ex fetch Hex. rewrite forallb_forall in Ht.
    destruct (known_in _ (Ht ex Hex)) as [E|[E|[E|[]]]]; rewrite <- E.
    + left; reflexivity.
    + right; left; reflexivity.
    + right; right; reflexivity.
Qed.

(** A button is rendered as the active one exactly when it is the button
    of the selected provider, and any other button gets the class
    [model-button] followed by a space; so, when providers are chosen
    through the buttons, exactly one of the three buttons is active, and
    after a click it is the one clicked. *)
Theorem one_button_is_active (w : App.World) (es : list App.Event) :
  Log.providers_known w = true ->
  forallb Log.from_page es = true ->
  filter (fun b => str_eqb
            (View.getButtonClassName (App.ui (App.run apiKey w es)) b)
            (lit "model-button active")) View.buttons
  = [App.selectedModel (App.ui (App.run apiKey w es))]
  /\ (forall m b,
        View.getButtonClassName
          (App.ui (App.handleModelChange m (App.run apiKey w es))) b
        = lit "model-button active" <-> b = m)
  /\ (forall m b, b <> m ->
        View.getButtonClassName
          (App.ui (App.handleModelChange m (App.run apiKey w es))) b
        = lit "model-button ").
Proof.
  intros Hw Hes.
  pose proof (run_providers_known apiKey es w Hw Hes) as H.
  unfold Log.providers_known in H.
  apply andb_true_iff in H. destruct H as [H _].
  apply andb_true_iff in H. destruct H as [Hs _].
  apply known_in in Hs. split; [|split].
  - unfold View.getButtonClassName.
    destruct Hs as [E|[E|[E|[]]]]; rewrite <- E; reflexivity.
  - intros m b. rewrite button_class. cbn [App.handleModelChange App.ui
      App.selectedModel].
    destruct (str_eqb m b) eqn:E.
    + apply str_eqb_eq in E. subst b. split; reflexivity.
    + split; [discriminate|]. intros ->. rewrite str_eqb_refl in E.
      discriminate.
  - intros m b Hne. rewrite button_class. cbn [App.handleModelChange App.ui
      App.selectedModel].
    rewrite str_eqb_neq; [reflexivity|]. intros ->. apply Hne; reflexivity.
Qed.

End Invariants.

Lemma log_messages_well_formed_witness :
  Log.world_ok App.initial = true
  /\ exists s, s <> [] /\ trim s = s
       /\ In {| App.text := VString s; App.sender := App.user;
                App.model := None |}
            (App.messages (App.ui
              (App.run (lit "key") App.initial
                [App.Typed ([32]%N ++ lit "hello"); App.Submitted]))).
Proof.
  split; [reflexivity|].
  assert (Hin : In {| App.text := VString (lit "hello");
                      App.sender := App.user; App.model := None |}
            (App.messages (App.ui
              (App.run (lit "key") App.initial
                [App.Typed ([32]%N ++ lit "hello"); App.Submitted]))))
    by (left; reflexivity).
  destruct (log_messages_well_formed (lit "key") App.initial
              [App.Typed ([32]%N ++ lit "hello"); App.Submitted]
              _ eq_refl Hin) as (s & Es & Hne & Ht & _).
  cbn [App.text] in Es. injection Es as <-.
  exists (lit "hello"). split; [exact Hne|]. split; [exact Ht|exact Hin].
Defined.

Lemma page_keeps_known_providers_witness :
  In (App.selectedModel (App.ui (App.run (lit "key") App.initial
        [App.ModelChosen Router.claude; App.Typed (lit "hello");
         App.Submitted; App.ModelChosen Router.chatgpt])))
     View.buttons.
Proof.
  exact (proj1 (page_keeps_known_providers (lit "key") App.initial
    [App.ModelChosen Router.claude; App.Typed (lit "hello");
     App.Submitted; App.ModelChosen Router.chatgpt] eq_refl eq_refl)).
Defined.

Lemma one_button_is_active_witness :
  filter (fun b => str_eqb
            (View.getButtonClassName (App.ui (App.run (lit "key") App.initial
               [App.ModelChosen Router.claude])) b)
            (lit "model-button active")) View.buttons
  = [Router.claude].
Proof.
  exact (proj1 (one_button_is_active (lit "key") App.initial
    [App.ModelChosen Router.claude] eq_refl eq_refl)).
Defined.

(* ===================================================================== *)
(** ** Further properties: exchanges that overlap *)
(* ===================================================================== *)

Lemma nth_error_middle (A : Type) (l r : list A) (x : A) :
  nth_error (l ++ x :: r) (List.length l) = Some x.
Proof. induction l as [|a l IH]; simpl; [reflexivity | exact IH]. Qed.

Lemma drop_middle (A : Type) (l r : list A) (x : A) :
  firstn (List.length l) (l ++ x :: r)
    ++ skipn (S (List.length l)) (l ++ x :: r) = l ++ r.
Proof.
  induction l as [|a l IH]; simpl; [reflexivity|]. f_equal. exact IH.
Qed.

Section Overlap.
Variable apiKey : js_string.

(** What one event does to the three counts. *)
Lemma step_counts (w : App.World) (e : App.Event) :
  (Log.users (App.step apiKey w e) = Log.users w
   /\ Log.bots (App.step apiKey w e) = Log.bots w
   /\ Log.pending (App.step apiKey w e) = Log.pending w)
  \/ (Log.users (App.step apiKey w e) = S (Log.users w)
      /\ Log.bots (App.step apiKey w e) = Log.bots w
      /\ Log.pending (App.step apiKey w e) = S (Log.pending w))
  \/ (Log.users (App.step apiKey w e) = Log.users w
      /\ Log.bots (App.step apiKey w e) = S (Log.bots w)
      /\ S (Log.pending (App.step apiKey w e)) = Log.pending w)
  \/ (Log.keeps_provider e = false
      /\ Log.users (App.step apiKey w e) = 0
      /\ Log.bots (App.step apiKey w e) = 0
      /\ Log.pending (App.step apiKey w e) = Log.pending w).
Proof.
  destruct e as [v| |m|i fetch]; cbn [App.step].
  - left. repeat split.
  - destruct (str_eqb (trim (App.input (App.ui w))) []) eqn:E.
    + apply str_eqb_eq in E. rewrite (submit_blank w E). left. repeat split.
    + assert (Hn : trim (App.input (App.ui w)) <> []).
      { intros Hn. rewrite Hn in E. discriminate. }
      right; left. rewrite (submit_nonblank w Hn).
      unfold Log.users, Log.bots, Log.pending.
      cbn [App.ui App.timers App.messages].
      rewrite !count_snoc, length_app. cbn. lia.
  - right; right; right. repeat split.
  - destruct (nth_error (App.timers w) i) as [ex|] eqn:E.
    + right; right; left.
      destruct (callback_appends apiKey fetch ex (App.ui w)) as (v & _ & Ec).
      unfold Log.users, Log.bots, Log.pending.
      cbn [App.ui App.timers]. rewrite Ec. cbn [App.messages].
      rewrite !count_snoc, (length_without _ _ _ _ E). cbn. lia.
    + left. repeat split.
Qed.

Lemma run_balance_le (es : list App.Event) (w : App.World) :
  Log.users w <= Log.bots w + Log.pending w ->
  Log.users (App.run apiKey w es)
  <= Log.bots (App.run apiKey w es) + Log.pending (App.run apiKey w es).
Proof.
  revert w; induction es as [|e es IH]; intros w H; [exact H|].
  rewrite run_cons. apply IH.
  destruct (step_counts w e) as [H'|[H'|[H'|H']]]; lia.
Qed.

Lemma run_balance_eq (es : list App.Event) (w : App.World) :
  forallb Log.keeps_provider es = true ->
  Log.users w = Log.bots w + Log.pending w ->
  Log.users (App.run apiKey w es)
  = Log.bots (App.run apiKey w es) + Log.pending (App.run apiKey w es).
Proof.
  revert w; induction es as [|e es IH]; intros w Hes H; [exact H|].
  simpl in Hes. apply andb_true_iff in Hes. destruct Hes as [He Hes].
  rewrite run_cons. apply IH; [exact Hes|].
  destruct (step_counts w e) as [H'|[H'|[H'|H']]]; try lia.
  destruct H' as [H' _]. rewrite He in H'. discriminate.
Qed.

Lemma run_typing_pending (es : list App.Event) (w : App.World) :
  (App.isTyping (App.ui w) = true -> App.timers w <> []) ->
  App.isTyping (App.ui (App.run apiKey w es)) = true ->
  App.timers (App.run apiKey w es) <> [].
Proof.
  revert w; induction es as [|e es IH]; intros w H; [exact H|].
  rewrite run_cons. apply IH. clear IH.
  destruct e as [v| |m|i fetch]; cbn [App.step].
  - exact H.
  - destruct (str_eqb (trim (App.input (App.ui w))) []) eqn:E.
    + apply str_eqb_eq in E. rewrite (submit_blank w E). exact H.
    + assert (Hn : trim (App.input (App.ui w)) <> []).
      { intros Hn. rewrite Hn in E. discriminate. }
      rewrite (submit_nonblank w Hn). cbn [App.timers]. intros _ Hnil.
      apply app_eq_nil in Hnil. destruct Hnil as [_ Hnil]. discriminate.
  - exact H.
  - destruct (nth_error (App.timers w) i) as [ex|] eqn:E; [|exact H].
    destruct (callback_appends apiKey fetch ex (App.ui w)) as (v & _ & Ec).
    cbn [App.ui]. rewrite Ec. cbn [App.isTyping]. discriminate.
Qed.

End Overlap.

Section Accounting.
Variable apiKey : js_string.

(** From a world in which every user message of the log is answered or
    waits for its callback, the first render among them: as long as no
    provider is chosen, the user messages of the log are exactly as many as
    its bot messages and the pending callbacks together; a change of
    provider empties the log but not the callbacks, so in general they are
    at most as many. *)
Theorem user_messages_answered_or_pending
    (w : App.World) (es : list App.Event) :
  Log.users w = Log.bots w + Log.pending w ->
  Log.users (App.run apiKey w es)
    <= Log.bots (App.run apiKey w es) + Log.pending (App.run apiKey w es)
  /\ (forallb Log.keeps_provider es = true ->
      Log.users (App.run apiKey w es)
      = Log.bots (App.run apiKey w es) + Log.pending (App.run apiKey w es)).
Proof.
  intros H. split.
  - apply run_balance_le. lia.
  - intros Hes. apply run_balance_eq; assumption.
Qed.

(** The thinking animation is shown only while a callback is pending:
    from a world where that holds, the first render among them, every run
    ends in a world where [isTyping] implies a pending callback. *)
Theorem thinking_only_while_pending (w : App.World) (es : list App.Event) :
  (App.isTyping (App.ui w) = true -> App.timers w <> []) ->
  App.isTyping (App.ui (App.run apiKey w es)) = true ->
  App.timers (App.run apiKey w es) <> [].
Proof. intros H. apply run_typing_pending. exact H. Qed.

(** A reply that lands after the provider was changed is appended to the
    emptied log: when a callback is pending and a provider is chosen before
    it completes, the log is then the one bot message of that callback,
    tagged with the provider the callback captured, with no user message
    before it, while the selection is the new provider. *)
Theorem reply_lands_after_provider_change
    (w : App.World) (i : nat) (ex : App.Exchange) (m : Router.AiModel)
    (fetch : Gemini.Network) :
  nth_error (App.timers w) i = Some ex ->
  exists v,
    Router.getBotResponse apiKey fetch (App.trimmedInput ex)
      (App.capturedModel ex) = Normal v
    /\ App.ui (App.run apiKey w [App.ModelChosen m; App.Completed i fetch])
       = {| App.messages := [botMessage v (App.capturedModel ex)];
            App.input := App.input (App.ui w);
            App.isTyping := false;
            App.selectedModel := m |}.
Proof.
  intros E.
  destruct (callback_appends apiKey fetch ex
              (App.ui (App.handleModelChange m w))) as (v & Ev & Ec).
  exists v. split; [exact Ev|].
  unfold App.run. cbn [fold_left App.step].
  cbn [App.handleModelChange App.timers]. rewrite E. cbn [App.ui].
  exact Ec.
Qed.

(** A submission is not held back while another exchange is in flight, and
    the completion of one exchange lowers the in-flight flag for all: after
    two submissions and the completion of the first, [isTyping] is false
    while the callback of the second is still pending. *)
Theorem flag_lowered_while_exchange_pending
    (w : App.World) (v1 v2 : js_string) (fetch : Gemini.Network) :
  trim v1 <> [] ->
  trim v2 <> [] ->
  App.isTyping (App.ui (App.run apiKey w
    [App.Typed v1; App.Submitted; App.Typed v2; App.Submitted;
     App.Completed (List.length (App.timers w)) fetch])) = false
  /\ App.timers (App.run apiKey w
       [App.Typed v1; App.Submitted; App.Typed v2; App.Submitted;
        App.Completed (List.length (App.timers w)) fetch])
     = App.timers w
         ++ [{| App.trimmedInput := trim v2;
                App.capturedModel := App.selectedModel (App.ui w) |}]
  /\ exists u1 u2 b,
       App.messages (App.ui (App.run apiKey w
         [App.Typed v1; App.Submitted; App.Typed v2; App.Submitted;
          App.Completed (List.length (App.timers w)) fetch]))
       = App.messages (App.ui w) ++ [u1; u2; b]
       /\ App.sender u1 = App.user /\ App.sender u2 = App.user
       /\ App.sender b = App.bot.
Proof.
  intros H1 H2. unfold App.run. cbn [fold_left App.step].
  rewrite (submit_nonblank (App.handleInputChange v1 w) H1).
  unfold userMessageOf, exchangeOf.
  cbn [App.handleInputChange App.ui App.timers App.messages App.input
       App.selectedModel App.isTyping].
  match goal with
  | |- context [App.handleSendMessage ?x] =>
      rewrite (submit_nonblank x H2)
  end.
  unfold userMessageOf, exchangeOf.
  cbn [App.handleInputChange App.ui App.timers App.messages App.input
       App.selectedModel App.isTyping].
  rewrite <- !app_assoc. cbn [app].
  rewrite nth_error_middle, drop_middle. cbn [App.ui App.timers].
  match goal with
  | |- context [App.botCallback apiKey fetch ?x ?s] =>
      destruct (callback_appends apiKey fetch x s) as (v & _ & Ec);
      rewrite Ec
  end.
  cbn [App.messages App.isTyping].
  split; [reflexivity|]. split; [reflexivity|].
  eexists _, _, _. rewrite <- !app_assoc. cbn [app].
  split; [reflexivity|]. repeat split.
Qed.

End Accounting.

Lemma user_messages_answered_or_pending_witness :
  Log.users App.initial = Log.bots App.initial + Log.pending App.initial
  /\ Log.users (App.run (lit "key") App.initial
       [App.Typed (lit "hello"); App.Submitted; App.Typed (lit "again");
        App.Submitted; App.Completed 1 (fun _ => Throw NetworkError)])
     = Log.bots (App.run (lit "key") App.initial
       [App.Typed (lit "hello"); App.Submitted; App.Typed (lit "again");
        App.Submitted; App.Completed 1 (fun _ => Throw NetworkError)])
       + Log.pending (App.run (lit "key") App.initial
       [App.Typed (lit "hello"); App.Submitted; App.Typed (lit "again");
        App.Submitted; App.Completed 1 (fun _ => Throw NetworkError)]).
Proof.
  split; [reflexivity|].
  exact (proj2 (user_messages_answered_or_pending (lit "key") App.initial
    [App.Typed (lit "hello"); App.Submitted; App.Typed (lit "again");
     App.Submitted; App.Completed 1 (fun _ => Throw NetworkError)] eq_refl)
    eq_refl).
Defined.

Lemma thinking_only_while_pending_witness :
  App.isTyping (App.ui (App.run (lit "key") App.initial
    [App.Typed (lit "hello"); App.Submitted; App.ModelChosen Router.claude]))
  = true
  /\ App.timers (App.run (lit "key") App.initial
       [App.Typed (lit "hello"); App.Submitted;
        App.ModelChosen Router.claude]) <> [].
Proof.
  split; [reflexivity|].
  apply (thinking_only_while_pending (lit "key") App.initial
    [App.Typed (lit "hello"); App.Submitted; App.ModelChosen Router.claude]).
  - discriminate.
  - reflexivity.
Defined.

Lemma reply_lands_after_provider_change_witness :
  exists v,
    App.ui (App.run (lit "key")
      (App.run (lit "key") App.initial
         [App.ModelChosen Router.chatgpt; App.Typed (lit "hello");
          App.Submitted])
      [App.ModelChosen Router.claude;
       App.Completed 0 (fun _ => Throw NetworkError)])
    = {| App.messages := [botMessage v Router.chatgpt];
         App.input := [];
         App.isTyping := false;
         App.selectedModel := Router.claude |}.
Proof.
  destruct (reply_lands_after_provider_change (lit "key")
    (App.run (lit "key") App.initial
       [App.ModelChosen Router.chatgpt; App.Typed (lit "hello");
        App.Submitted])
    0 {| App.trimmedInput := lit "hello";
         App.capturedModel := Router.chatgpt |}
    Router.claude (fun _ => Throw NetworkError) eq_refl) as (v & _ & E).
  exists v. exact E.
Defined.

Lemma flag_lowered_while_exchange_pending_witness :
  App.isTyping (App.ui (App.run (lit "key") App.initial
    [App.Typed (lit "hello"); App.Submitted; App.Typed (lit "again");
     App.Submitted; App.Completed 0 (fun _ => Throw NetworkError)])) = false
  /\ App.timers (App.run (lit "key") App.initial
       [App.Typed (lit "hello"); App.Submitted; App.Typed (lit "again");
        App.Submitted; App.Completed 0 (fun _ => Throw NetworkError)])
     = [{| App.trimmedInput := lit "again";
           App.capturedModel := Router.gemini |}].
Proof.
  assert (H1 : trim (lit "hello") <> []) by (vm_compute; discriminate).
  assert (H2 : trim (lit "again") <> []) by (vm_compute; discriminate).
  destruct (flag_lowered_while_exchange_pending (lit "key") App.initial
    (lit "hello") (lit "again") (fun _ => Throw NetworkError) H1 H2)
    as (Ht & Ep & _).
  split; [exact Ht|exact Ep].
Defined.

Lemma gemini_reads_one_request apiKey (fetch1 fetch2 : Gemini.Network)
    userMessage :
  fetch1 (Gemini.request apiKey userMessage)
  = fetch2 (Gemini.request apiKey userMessage) ->
  Gemini.getGeminiResponse apiKey fetch1 userMessage
  = Gemini.getGeminiResponse apiKey fetch2 userMessage.
Proof.
  intros H. unfold Gemini.getGeminiResponse, Gemini.attempt.
  rewrite H. reflexivity.
Qed.

Section Order.
Variable apiKey : js_string.

(** Bot messages are appended in the order in which the exchanges complete,
    not in the order in which they were submitted: when the later of two
    pending callbacks completes first, its reply comes first in the log. *)
Theorem replies_follow_completion_order
    (w : App.World) (i j : nat) (exi exj : App.Exchange)
    (fi fj : Gemini.Network) :
  i < j ->
  nth_error (App.timers w) i = Some exi ->
  nth_error (App.timers w) j = Some exj ->
  exists vi vj,
    Router.getBotResponse apiKey fi (App.trimmedInput exi)
      (App.capturedModel exi) = Normal vi
    /\ Router.getBotResponse apiKey fj (App.trimmedInput exj)
         (App.capturedModel exj) = Normal vj
    /\ App.messages (App.ui (App.run apiKey w
         [App.Completed j fj; App.Completed i fi]))
       = App.messages (App.ui w)
           ++ [botMessage vj (App.capturedModel exj);
               botMessage vi (App.capturedModel exi)].
Proof.
  intros Hij Ei Ej.
  destruct (callback_appends apiKey fj exj (App.ui w)) as (vj & Evj & Ecj).
  destruct (callback_appends apiKey fi exi
              (App.botCallback apiKey fj exj (App.ui w)))
    as (vi & Evi & Eci).
  exists vi, vj. split; [exact Evi|]. split; [exact Evj|].
  unfold App.run. cbn [fold_left App.step]. rewrite Ej.
  cbn [App.timers App.ui].
  rewrite (nth_error_without_before _ _ _ _ Hij), Ei. cbn [App.ui].
  rewrite Eci, Ecj. cbn [App.messages]. rewrite <- app_assoc. reflexivity.
Qed.

(** What an exchange with the live provider sends is the trimmed text, in
    one request: with ['gemini'] selected, two networks that agree on the
    request built from the key and the trimmed input lead the submission
    and its completion to the same world. *)
Theorem exchange_sends_trimmed_text
    (w : App.World) (fetch1 fetch2 : Gemini.Network) :
  trim (App.input (App.ui w)) <> [] ->
  App.selectedModel (App.ui w) = Router.gemini ->
  fetch1 (Gemini.request apiKey (trim (App.input (App.ui w))))
  = fetch2 (Gemini.request apiKey (trim (App.input (App.ui w)))) ->
  App.run apiKey w
    [App.Submitted; App.Completed (List.length (App.timers w)) fetch1]
  = App.run apiKey w
      [App.Submitted; App.Completed (List.length (App.timers w)) fetch2].
Proof.
  intros Hn Hm Hf. unfold App.run. cbn [fold_left App.step].
  rewrite (submit_nonblank w Hn). cbn [App.timers App.ui].
  rewrite nth_error_snoc. unfold App.botCallback, exchangeOf.
  cbn [App.trimmedInput App.capturedModel]. rewrite Hm, !dispatch_gemini.
  rewrite (gemini_reads_one_request apiKey fetch1 fetch2 _ Hf). reflexivity.
Qed.

End Order.

Lemma replies_follow_completion_order_witness :
  exists vi vj,
    App.messages (App.ui (App.run (lit "key")
      (App.run (lit "key") App.initial
         [App.Typed (lit "hello"); App.Submitted; App.Typed (lit "again");
          App.Submitted; App.ModelChosen Router.gemini])
      [App.Completed 1 (fun _ => Throw NetworkError);
       App.Completed 0 (fun _ => Throw NetworkError)]))
    = [botMessage vj Router.gemini; botMessage vi Router.gemini].
Proof.
  destruct (replies_follow_completion_order (lit "key")
    (App.run (lit "key") App.initial
       [App.Typed (lit "hello"); App.Submitted; App.Typed (lit "again");
        App.Submitted; App.ModelChosen Router.gemini])
    0 1
    {| App.trimmedInput := lit "hello"; App.capturedModel := Router.gemini |}
    {| App.trimmedInput := lit "again"; App.capturedModel := Router.gemini |}
    (fun _ => Throw NetworkError) (fun _ => Throw NetworkError)
    (le_n 1) eq_refl eq_refl) as (vi & vj & _ & _ & E).
  exists vi, vj. exact E.
Defined.

Lemma exchange_sends_trimmed_text_witness :
  App.run (lit "key") (App.handleInputChange (lit " hello ") App.initial)
    [App.Submitted;
     App.Completed 0
       (always {| Gemini.status := 200;
                  Gemini.json := Normal (body_with_text (VString (lit "Hi there"))) |})]
  = App.run (lit "key") (App.handleInputChange (lit " hello ") App.initial)
      [App.Submitted;
       App.Completed 0
         (fun req =>
            match at_path (Gemini.body req) Log.contents_path with
            | VString s =>
                if str_eqb s (lit "hello")
                then Normal {| Gemini.status := 200;
                               Gemini.json := Normal (body_with_text (VString (lit "Hi there"))) |}
                else Throw NetworkError
            | _ => Throw NetworkError
            end)].
Proof.
  refine (exchange_sends_trimmed_text (lit "key")
    (App.handleInputChange (lit " hello ") App.initial) _ _ _ eq_refl eq_refl).
  vm_compute; discriminate.
Defined.
